(** * libclang dependency-discovery C interface (CDependencies.cpp)

    A shallow embedding of [clang/tools/libclang/CDependencies.cpp]: the
    size-negotiated output lookup, the PCM path cache, input validation,
    the scan driver [getFullDependencies] and the two result shapes
    (v3 and v4), together with the properties the specification states
    about them.

    Effects are explicit.  Every call that leaves the translation unit
    (the scanning engine, the caller's lookup callback [MLO], the caller's
    discovery callback [MDC], the TU result handler) appends an [Event] to
    a trace; stores through the [CXString *error] out-parameter go to a
    cell of the state; behaviour the C++ leaves undefined or turns into an
    abort is an [Abnormal] outcome. *)

From Stdlib Require Import Ascii String.
From stdpp Require Import gmap strings list.

Local Open Scope string_scope.
Local Open Scope list_scope.

(** ** Data model *)

(** [clang::tooling::dependencies::ModuleID]: module name and context hash. *)
Record ModuleID := mkModuleID {
  ModuleName : string;
  ContextHash : string;
}.

#[global] Instance ModuleID_eq_dec : EqDecision ModuleID.
Proof. solve_decision. Defined.

#[global] Instance ModuleID_countable : Countable ModuleID.
Proof.
  refine (inj_countable' (fun i => (ModuleName i, ContextHash i))
                         (fun p => mkModuleID p.1 p.2) _).
  by intros [].
Defined.

(** [CXDependencyMode] and the service-side [ScanningOutputFormat] it is
    unwrapped to.  The source mentions the two formats [Make] and [Full]. *)
Inductive CXDependencyMode := CXDependencyMode_Flat | CXDependencyMode_Full.

Inductive ScanningOutputFormat := Make | Full.

#[global] Instance ScanningOutputFormat_eq_dec : EqDecision ScanningOutputFormat.
Proof. solve_decision. Defined.

Definition unwrap (Format : CXDependencyMode) : ScanningOutputFormat :=
  match Format with
  | CXDependencyMode_Flat => Make
  | CXDependencyMode_Full => Full
  end.

Inductive ModuleOutputKind :=
| ModuleFile
| DependencyFile
| DependencyTargets
| DiagnosticSerializationFile.

#[global] Instance ModuleOutputKind_eq_dec : EqDecision ModuleOutputKind.
Proof. solve_decision. Defined.

Inductive CXOutputKind :=
| CXOutputKind_ModuleFile
| CXOutputKind_Dependencies
| CXOutputKind_DependenciesTarget
| CXOutputKind_SerializedDiagnostics.

Definition wrap (MOK : ModuleOutputKind) : CXOutputKind :=
  match MOK with
  | ModuleFile => CXOutputKind_ModuleFile
  | DependencyFile => CXOutputKind_Dependencies
  | DependencyTargets => CXOutputKind_DependenciesTarget
  | DiagnosticSerializationFile => CXOutputKind_SerializedDiagnostics
  end.

(** A [CXString] owns a character string; a [CXStringSet] is an array of
    them, in order. *)
Definition CXString := string.
Definition CXStringSet := list string.

(** Engine-side [ModuleDeps]; [CanonicalCommandLine] is what
    [getCanonicalCommandLine()] returns for the module. *)
Record ModuleDeps := mkModuleDeps {
  MD_ID : ModuleID;
  ClangModuleMapFile : string;
  MD_FileDeps : list string;
  MD_ClangModuleDeps : list ModuleID;
  CanonicalCommandLine : list string;
}.

(** One compile command of the engine ([getExecutable], [getArguments]). *)
Record Command := mkCommand {
  getExecutable : string;
  getArguments : list string;
}.

Record FullDependencies := mkFullDependencies {
  FD_ID : ModuleID;
  FD_FileDeps : list string;
  FD_ClangModuleDeps : list ModuleID;
  DriverCommandLine : list string;
  Commands : list Command;
}.

Record FullDependenciesResult := mkFDR {
  DiscoveredModules : list ModuleDeps;
  FullDeps : FullDependencies;
}.

(** The C structures handed to the caller. *)
Record CXModuleDependency := mkCXModuleDependency {
  Name : CXString;
  M_ContextHash : CXString;
  ModuleMapPath : CXString;
  M_FileDeps : CXStringSet;
  M_ModuleDeps : CXStringSet;
  M_BuildArguments : CXStringSet;
}.

(** [CXModuleDependencySet]: [Count] is the length of [Modules] (the
    source stores it in an [int]; sizes are taken to fit). *)
Definition CXModuleDependencySet := list CXModuleDependency.

Record CXFileDependencies := mkCXFileDependencies {
  F_ContextHash : CXString;
  F_FileDeps : CXStringSet;
  F_ModuleDeps : CXStringSet;
  F_BuildArguments : CXStringSet;
}.

Record CXTranslationUnitCommand := mkCXTranslationUnitCommand {
  C_ContextHash : CXString;
  C_FileDeps : CXStringSet;
  C_ModuleDeps : CXStringSet;
  Executable : CXString;
  C_BuildArguments : CXStringSet;
}.

(** [CXFileDependencies_v4]: [NumCommands] is the length of the array. *)
Definition CXFileDependencies_v4 := list CXTranslationUnitCommand.

(** ** Effects *)

(** Calls that cross the boundary of the translation unit. *)
Inductive Event :=
| EvComputeDependencies (WorkingDirectory : string)
    (Compilation : list string) (ModuleNameHint : option string)
| EvMLO (ModuleName ContextHash : string) (Kind : CXOutputKind) (BufferSize : nat)
| EvMDC (MDS : CXModuleDependencySet)
| EvHandleFullDeps (FD : FullDependencies).

(** Points past which the embedding does not follow an execution.  Only
    [AssertionFailure] is a check the source makes (an [assert], which
    aborts).  The other three mark an operation the source performs
    unchecked and whose behaviour C++ leaves undefined: a store through a
    null [CXString *]; [std::string(Buffer.begin(), Len)] with [Len] larger
    than the [Size] of the buffer; the copy of [argc] strings from an
    [argv] array that has only [Size]. *)
Inductive Abnormal :=
| NullStore
| AssertionFailure
| BufferOverread (Len Size : nat)
| ArgvOverread (argc : Z) (Size : nat).

Inductive Outcome (A : Type) :=
| Ret (a : A)
| Stop (e : Abnormal).
Arguments Ret {A} a.
Arguments Stop {A} e.

(** A nullable [CXString *]. *)
Inductive CXStringPtr := NullPtr | ErrorPtr.

Section WithCallbackContext.

(** The state behind the caller's [void *MLOContext]. *)
Context {Ctx : Type}.

Record State := mkState {
  trace : list Event;
  mloContext : Ctx;
  errorCell : option CXString;            (* the caller's [CXString], once written *)
  PCMPaths : gmap ModuleID string;        (* [OutputLookup::PCMPaths] of the running call *)
}.

Definition M (A : Type) : Type := State -> Outcome A * State.

Definition ret {A} (a : A) : M A := fun s => (Ret a, s).

Definition bind {A B} (m : M A) (k : A -> M B) : M B :=
  fun s => match m s with
           | (Ret a, s') => k a s'
           | (Stop e, s') => (Stop e, s')
           end.

Definition stop {A} (e : Abnormal) : M A := fun s => (Stop e, s).

Definition emit (e : Event) : M unit :=
  fun s => (Ret tt, mkState (trace s ++ [e]) (mloContext s) (errorCell s) (PCMPaths s)).

Definition assert (b : bool) : M unit :=
  if b then ret tt else stop AssertionFailure.

(** [*error = S]. *)
Definition store (error : CXStringPtr) (S : CXString) : M unit :=
  match error with
  | NullPtr => stop NullStore
  | ErrorPtr =>
      fun s => (Ret tt, mkState (trace s) (mloContext s) (Some S) (PCMPaths s))
  end.

(** [if (error) *error = S]. *)
Definition storeIfNonNull (error : CXStringPtr) (S : CXString) : M unit :=
  match error with
  | NullPtr => ret tt
  | ErrorPtr => store error S
  end.

End WithCallbackContext.

Arguments State : clear implicits.
Arguments M : clear implicits.

Notation "'let*' x ':=' c1 'in' c2" := (bind c1 (fun x => c2))
  (at level 10, x pattern, c1 at level 100, c2 at level 200).
Notation "c1 ;;; c2" := (bind c1 (fun _ => c2))
  (at level 100, right associativity).

(** ** Output path lookup *)

(** [CXModuleLookupOutputCallback]: called with the module name, the
    context hash, the output kind and a buffer of [BufferSize] bytes, it
    returns the bytes it wants to put into the buffer and the length the
    output needs; it may update the caller's context. *)
Definition CXModuleLookupOutputCallback (Ctx : Type) : Type :=
  Ctx -> string -> string -> CXOutputKind -> nat -> (list ascii * nat) * Ctx.

(** What a write of [Out] at [Buffer.data()] leaves in a buffer that only
    has [length Buffer] bytes. *)
Definition overwrite (Buffer Out : list ascii) : list ascii :=
  take (length Buffer) Out ++ drop (length Out) Buffer.

(** [Buffer.resize(Len)]: new elements are value-initialised. *)
Definition resize (Buffer : list ascii) (Len : nat) : list ascii :=
  take Len Buffer ++ replicate (Len - length Buffer) Ascii.zero.

Section OutputLookup.

Context {Ctx : Type}.

(** [MLO(MLOContext, Name, Hash, Kind, Buffer.data(), Buffer.size())]. *)
Definition callMLO (MLO : CXModuleLookupOutputCallback Ctx) (ID : ModuleID)
    (Kind : CXOutputKind) (Buffer : list ascii) : M Ctx (list ascii * nat) :=
  fun s =>
    let '(Out, Len, ctx) :=
      MLO (mloContext s) (ModuleName ID) (ContextHash ID) Kind (length Buffer) in
    (Ret (overwrite Buffer Out, Len),
     mkState (trace s ++ [EvMLO (ModuleName ID) (ContextHash ID) Kind (length Buffer)])
             ctx (errorCell s) (PCMPaths s)).

(** [std::string(Buffer.begin(), Len)]: the first [Len] bytes of the
    buffer; the source does not compare [Len] with the size of the buffer,
    and a larger [Len] reads past its end. *)
Definition stringFromBuffer (Buffer : list ascii) (Len : nat) : M Ctx string :=
  if decide (Len <= length Buffer)
  then ret (string_of_list_ascii (take Len Buffer))
  else stop (BufferOverread Len (length Buffer)).

(** The static [lookupModuleOutput]. *)
Definition lookupModuleOutput (ID : ModuleID) (MOK : ModuleOutputKind)
    (MLO : CXModuleLookupOutputCallback Ctx) : M Ctx string :=
  let Buffer := replicate 256 Ascii.zero in
  let* (Buffer, Len) := callMLO MLO ID (wrap MOK) Buffer in
  let* (Buffer, Len) :=
     (if decide (length Buffer < Len)
      then callMLO MLO ID (wrap MOK) (resize Buffer Len)
      else ret (Buffer, Len)) in
  stringFromBuffer Buffer Len.

Definition getPCMPaths : M Ctx (gmap ModuleID string) :=
  fun s => (Ret (PCMPaths s), s).

Definition setPCMPaths (P : gmap ModuleID string) : M Ctx unit :=
  fun s => (Ret tt, mkState (trace s) (mloContext s) (errorCell s) P).

(** [OutputLookup::lookupModuleOutput].  [PCMPaths.insert({ID, ""})] adds
    the entry only when the key is absent and says whether it did. *)
Definition OutputLookup_lookupModuleOutput (MLO : CXModuleLookupOutputCallback Ctx)
    (ID : ModuleID) (MOK : ModuleOutputKind) : M Ctx string :=
  if decide (MOK <> ModuleFile)
  then lookupModuleOutput ID MOK MLO
  else
    let* P := getPCMPaths in
    match P !! ID with
    | Some Path => ret Path
    | None =>
        setPCMPaths (<[ID := ""]> P) ;;;
        let* Path := lookupModuleOutput ID MOK MLO in
        let* P' := getPCMPaths in
        setPCMPaths (<[ID := Path]> P') ;;;
        ret Path
    end.

End OutputLookup.

(** ** The scanning engine and its consumer *)

(** What a scan delivers to the [FullDependencyConsumer]: the modules the
    engine reported, in scan order, and the translation-unit record each of
    the two consumer methods hands back. *)
Record ScanData := mkScanData {
  ReportedModules : list ModuleDeps;
  LegacyFullDeps : list string -> FullDependencies;
  TakenFullDeps : FullDependencies;
}.

Inductive EngineOutcome :=
| EngineError (Message : string)      (* [llvm::toString] of the [llvm::Error] *)
| EngineSuccess (Data : ScanData).

(** One run of the engine: the output paths it asks the consumer's
    [LookupOutput] for, and what it ends with once it has them. *)
Record EngineRun := mkEngineRun {
  Lookups : list (ModuleID * ModuleOutputKind);
  Finish : list string -> EngineOutcome;
}.

Record DependencyScanningService := mkService {
  ServiceFormat : ScanningOutputFormat;
}.

Record DependencyScanningWorker := mkWorker {
  getFormat : ScanningOutputFormat;
  Engine : string -> list string -> option string -> EngineRun;
}.

Definition clang_experimental_DependencyScannerService_create_v0
    (Format : CXDependencyMode) : DependencyScanningService :=
  mkService (unwrap Format).

Definition clang_experimental_DependencyScannerWorker_create_v0
    (Service : DependencyScanningService)
    (Engine : string -> list string -> option string -> EngineRun)
  : DependencyScanningWorker :=
  mkWorker (ServiceFormat Service) Engine.

(** Modelled from the spec: the identity registry behind [AlreadySeen]
    (the [FullDependencyConsumer] that reads it is outside this file).
    [markSeen] answers [true] the first time an identity is seen and
    [false] on every later call with an equal identity; equality is
    structural on (name, context hash). *)
Definition markSeen (ID : ModuleID) (AlreadySeen : gset ModuleID)
  : bool * gset ModuleID :=
  (bool_decide (ID ∉ AlreadySeen), {[ID]} ∪ AlreadySeen).

(** Modelled from the spec: of the modules the engine reports, only those
    never seen before are added to the discovered modules, in scan order. *)
Fixpoint discover (Reported : list ModuleDeps) (AlreadySeen : gset ModuleID)
  : list ModuleDeps * gset ModuleID :=
  match Reported with
  | [] => ([], AlreadySeen)
  | MD :: Rest =>
      let '(fresh, Seen) := markSeen (MD_ID MD) AlreadySeen in
      let '(New, Seen') := discover Rest Seen in
      (if fresh then MD :: New else New, Seen')
  end.

(** Modelled from the spec: [FullDependencyConsumer::
    getFullDependenciesLegacyDriverCommand] and [takeFullDependencies];
    the consumer class is outside this file. *)
Definition getFullDependenciesLegacyDriverCommand (Data : ScanData)
    (AlreadySeen : gset ModuleID) (Compilation : list string)
  : FullDependenciesResult * gset ModuleID :=
  let '(New, Seen) := discover (ReportedModules Data) AlreadySeen in
  (mkFDR New (LegacyFullDeps Data Compilation), Seen).

Definition takeFullDependencies (Data : ScanData) (AlreadySeen : gset ModuleID)
  : FullDependenciesResult * gset ModuleID :=
  let '(New, Seen) := discover (ReportedModules Data) AlreadySeen in
  (mkFDR New (TakenFullDeps Data), Seen).

(** ** Result assembly *)

(** The loop [Modules.push_back(MID.ModuleName + ":" + MID.ContextHash)],
    which the source writes out three times. *)
Definition moduleDepString (MID : ModuleID) : string :=
  ModuleName MID +:+ ":" +:+ ContextHash MID.

Definition moduleDepStrings (Deps : list ModuleID) : list string :=
  map moduleDepString Deps.

(** The body of the loop filling [MDS->Modules[I]]. *)
Definition makeModuleDependency (MD : ModuleDeps) : CXModuleDependency :=
  {| Name := ModuleName (MD_ID MD);
     M_ContextHash := ContextHash (MD_ID MD);
     ModuleMapPath := ClangModuleMapFile MD;
     M_FileDeps := MD_FileDeps MD;
     M_ModuleDeps := moduleDepStrings (MD_ClangModuleDeps MD);
     M_BuildArguments := CanonicalCommandLine MD |}.

(** The [CXFileDependencies] the v3 handler fills in. *)
Definition makeFileDependencies (FD : FullDependencies) : CXFileDependencies :=
  {| F_ContextHash := ContextHash (FD_ID FD);
     F_FileDeps := FD_FileDeps FD;
     F_ModuleDeps := moduleDepStrings (FD_ClangModuleDeps FD);
     F_BuildArguments := DriverCommandLine FD |}.

Definition is_empty {A} (l : list A) : bool :=
  match l with [] => true | _ => false end.

Section Scan.

Context {Ctx : Type}.

Fixpoint lookupAll (LookupOutput : ModuleID -> ModuleOutputKind -> M Ctx string)
    (Requests : list (ModuleID * ModuleOutputKind)) : M Ctx (list string) :=
  match Requests with
  | [] => ret []
  | (ID, MOK) :: Rest =>
      let* Path := LookupOutput ID MOK in
      let* Paths := lookupAll LookupOutput Rest in
      ret (Path :: Paths)
  end.

(** [Worker->computeDependencies(WorkingDirectory, Compilation, Consumer,
    ModuleName)], the consumer carrying [LookupOutput]. *)
Definition computeDependencies (Worker : DependencyScanningWorker)
    (WorkingDirectory : string) (Compilation : list string)
    (LookupOutput : ModuleID -> ModuleOutputKind -> M Ctx string)
    (ModuleName : option string) : M Ctx EngineOutcome :=
  emit (EvComputeDependencies WorkingDirectory Compilation ModuleName) ;;;
  let Run := Engine Worker WorkingDirectory Compilation ModuleName in
  let* Paths := lookupAll LookupOutput (Lookups Run) in
  ret (Finish Run Paths).

(** [getFullDependencies] from the declaration of [AlreadySeen] on, with
    the registry as an argument and returned at the end. *)
Definition getFullDependenciesFrom {R : Type} (AlreadySeen : gset ModuleID)
    (Worker : DependencyScanningWorker) (Compilation : list string)
    (WorkingDirectory : string) (error : CXStringPtr)
    (LookupOutput : ModuleID -> ModuleOutputKind -> M Ctx string)
    (DeprecatedDriverCommand : bool) (ModuleName : option string)
    (HandleFullDeps : FullDependencies -> M Ctx R)
  : M Ctx ((bool * option R) * gset ModuleID) :=
  let* Result :=
    computeDependencies Worker WorkingDirectory Compilation LookupOutput ModuleName in
  match Result with
  | EngineError Message =>
      store error Message ;;;
      ret ((false, None), AlreadySeen)
  | EngineSuccess Data =>
      let '(FDR, Seen) :=
        if DeprecatedDriverCommand
        then getFullDependenciesLegacyDriverCommand Data AlreadySeen Compilation
        else takeFullDependencies Data AlreadySeen in
      (if negb (is_empty (DiscoveredModules FDR))
       then emit (EvMDC (map makeModuleDependency (DiscoveredModules FDR)))
       else ret tt) ;;;
      emit (EvHandleFullDeps (FullDeps FDR)) ;;;
      let* FDeps := HandleFullDeps (FullDeps FDR) in
      ret ((true, Some FDeps), Seen)
  end.

(** [getFullDependencies]: [llvm::StringSet<> AlreadySeen] is a local,
    empty at every call and gone when the call returns.  The second
    component of the result is what [HandleFullDeps] left in the variable
    it captures ([None] for the null pointer it starts with). *)
Definition getFullDependencies {R : Type}
    (Worker : DependencyScanningWorker) (Compilation : list string)
    (WorkingDirectory : string) (error : CXStringPtr)
    (LookupOutput : ModuleID -> ModuleOutputKind -> M Ctx string)
    (DeprecatedDriverCommand : bool) (ModuleName : option string)
    (HandleFullDeps : FullDependencies -> M Ctx R)
  : M Ctx (bool * option R) :=
  let AlreadySeen : gset ModuleID := ∅ in
  let* (Result, _) :=
    getFullDependenciesFrom AlreadySeen Worker Compilation WorkingDirectory
      error LookupOutput DeprecatedDriverCommand ModuleName HandleFullDeps in
  ret Result.

(** [std::vector<std::string> Compilation{argv, argv + argc}]. *)
Definition makeCompilation (argc : Z) (argv : list string) : M Ctx (list string) :=
  if decide (Z.to_nat argc <= length argv)
  then ret (take (Z.to_nat argc) argv)
  else stop (ArgvOverread argc (length argv)).

Definition getFileDependencies {R : Type}
    (W : option DependencyScanningWorker) (argc : Z)
    (argv : option (list string)) (WorkingDirectory : string)
    (error : CXStringPtr)
    (LookupOutput : ModuleID -> ModuleOutputKind -> M Ctx string)
    (DeprecatedDriverCommand : bool) (ModuleName : option string)
    (HandleFullDeps : FullDependencies -> M Ctx R)
  : M Ctx (bool * option R) :=
  match W with
  | None =>
      storeIfNonNull error "missing CXDependencyScannerWorker" ;;;
      ret (false, None)
  | Some Worker =>
      (* [argc < 2 || !argv] *)
      match (if decide (argc < 2)%Z then None else argv) with
      | None =>
          storeIfNonNull error "invalid argc or argv" ;;;
          ret (false, None)
      | Some Args =>
          storeIfNonNull error "" ;;;
          if decide (getFormat Worker <> Full)
          then
            storeIfNonNull error "unsupported CXDependencyMode for this API" ;;;
            ret (false, None)
          else
            let* Compilation := makeCompilation argc Args in
            getFullDependencies Worker Compilation WorkingDirectory error
              LookupOutput DeprecatedDriverCommand ModuleName HandleFullDeps
      end
  end.

(** The [OutputLookup OL(MLOContext, MLO)] of an entry point starts with
    an empty [PCMPaths]. *)
Definition newOutputLookup : M Ctx unit := setPCMPaths ∅.

(** The handler the v3 entry point passes as [HandleFullDeps]. *)
Definition HandleFullDeps_v3 (FD : FullDependencies) : M Ctx CXFileDependencies :=
  assert (negb (is_empty (DriverCommandLine FD))) ;;;
  ret (makeFileDependencies FD).

(** The entry points.  The callbacks' context pointers stand for state of
    the caller: [MLOContext] is the [mloContext] of the state, and an
    invocation of [MDC] with [MDCContext] is the [EvMDC] event.  The unnamed
    [unsigned] parameter is not used by the source. *)
Definition clang_experimental_DependencyScannerWorker_getFileDependencies_v3
    (W : option DependencyScanningWorker) (argc : Z)
    (argv : option (list string)) (ModuleName : option string)
    (WorkingDirectory : string) (MLO : CXModuleLookupOutputCallback Ctx)
    (error : CXStringPtr) : M Ctx (option CXFileDependencies) :=
  newOutputLookup ;;;
  let LookupOutputs := OutputLookup_lookupModuleOutput MLO in
  let* (Success, FDeps) :=
    getFileDependencies W argc argv WorkingDirectory error LookupOutputs
      true ModuleName HandleFullDeps_v3 in
  assert (negb Success || bool_decide (is_Some FDeps)) ;;;
  ret FDeps.

(** The body of the loop filling [Commands[I]]. *)
Definition makeTranslationUnitCommand (FD : FullDependencies) (C : Command)
  : CXTranslationUnitCommand :=
  {| C_ContextHash := ContextHash (FD_ID FD);
     C_FileDeps := FD_FileDeps FD;
     C_ModuleDeps := moduleDepStrings (FD_ClangModuleDeps FD);
     Executable := getExecutable C;
     C_BuildArguments := getArguments C |}.

(** The handler the v4 entry point passes as [HandleFullDeps]. *)
Definition HandleFullDeps_v4 (FD : FullDependencies) : M Ctx CXFileDependencies_v4 :=
  assert (is_empty (DriverCommandLine FD)) ;;;
  ret (map (makeTranslationUnitCommand FD) (Commands FD)).

Definition clang_experimental_DependencyScannerWorker_getFileDependencies_v4
    (W : option DependencyScanningWorker) (argc : Z)
    (argv : option (list string)) (ModuleName : option string)
    (WorkingDirectory : string) (MLO : CXModuleLookupOutputCallback Ctx)
    (error : CXStringPtr) : M Ctx (option CXFileDependencies_v4) :=
  newOutputLookup ;;;
  let LookupOutputs := OutputLookup_lookupModuleOutput MLO in
  let* (Success, Result) :=
    getFileDependencies W argc argv WorkingDirectory error LookupOutputs
      false ModuleName HandleFullDeps_v4 in
  assert (negb Success || bool_decide (is_Some Result)) ;;;
  ret Result.

End Scan.

(** ** Observations on traces *)

Definition isMLO (e : Event) : bool :=
  match e with EvMLO _ _ _ _ => true | _ => false end.

(** Number of invocations of the lookup callback recorded in a trace. *)
Definition mloCount (t : list Event) : nat := length (filter (fun e => isMLO e = true) t).

(** The buffer sizes the lookup callback was invoked with, in order. *)
Definition mloSizes (t : list Event) : list nat :=
  omap (fun e => match e with EvMLO _ _ _ n => Some n | _ => None end) t.

(** The module sets handed to the discovery callback, in order. *)
Definition mdcCalls (t : list Event) : list CXModuleDependencySet :=
  omap (fun e => match e with EvMDC MDS => Some MDS | _ => None end) t.

(** The identities reported through the discovery callback, in order. *)
Definition reportedIDs (t : list Event) : list ModuleID :=
  concat (map (map (fun M => mkModuleID (Name M) (M_ContextHash M))) (mdcCalls t)).

(** Events other than lookup-callback invocations. *)
Definition nonMLO (t : list Event) : list Event :=
  filter (fun e => isMLO e = false) t.

(** ** Scans in sequence and their notifications *)

(** What a successful scan sends out after the engine has returned: the
    discovery callback, when there are discovered modules, and then the
    handler of the translation-unit record. *)
Definition notifications (FDR : FullDependenciesResult) : list Event :=
  (if is_empty (DiscoveredModules FDR) then []
   else [EvMDC (map makeModuleDependency (DiscoveredModules FDR))])
  ++ [EvHandleFullDeps (FullDeps FDR)].

Definition withEvents {Ctx : Type} (s : State Ctx) (evs : list Event) : State Ctx :=
  mkState (trace s ++ evs) (mloContext s) (errorCell s) (PCMPaths s).

Definition withError {Ctx : Type} (s : State Ctx) (S : CXString) : State Ctx :=
  mkState (trace s) (mloContext s) (Some S) (PCMPaths s).

(** The state in which an entry point hands over to [getFullDependencies]:
    a fresh [OutputLookup] and, when [error] is not null, an empty error
    string. *)
Definition scanEntryState {Ctx : Type} (error : CXStringPtr) (s : State Ctx) : State Ctx :=
  mkState (trace s) (mloContext s)
          (match error with ErrorPtr => Some "" | NullPtr => errorCell s end) ∅.

(** The state in which an entry point returns after a failed validation
    with message [Message]. *)
Definition rejectedState {Ctx : Type} (error : CXStringPtr) (Message : string)
    (s : State Ctx) : State Ctx :=
  mkState (trace s) (mloContext s)
          (match error with ErrorPtr => Some Message | NullPtr => errorCell s end) ∅.

Record ScanRequest := mkScanRequest {
  SR_Worker : DependencyScanningWorker;
  SR_Compilation : list string;
  SR_WorkingDirectory : string;
  SR_DeprecatedDriverCommand : bool;
  SR_ModuleName : option string;
}.

(** Scans run one after the other through one registry: each scan starts
    from the registry the previous one left. *)
Fixpoint scanSequence {Ctx R : Type} (AlreadySeen : gset ModuleID)
    (Scans : list ScanRequest) (error : CXStringPtr)
    (LookupOutput : ModuleID -> ModuleOutputKind -> M Ctx string)
    (HandleFullDeps : FullDependencies -> M Ctx R) : M Ctx (gset ModuleID) :=
  match Scans with
  | [] => ret AlreadySeen
  | Q :: Rest =>
      let* (_, Seen) :=
        getFullDependenciesFrom AlreadySeen (SR_Worker Q) (SR_Compilation Q)
          (SR_WorkingDirectory Q) error LookupOutput
          (SR_DeprecatedDriverCommand Q) (SR_ModuleName Q) HandleFullDeps in
      scanSequence Seen Rest error LookupOutput HandleFullDeps
  end.

(** What the consumer hands back, by mode. *)
Definition consumerResult (DeprecatedDriverCommand : bool) (Data : ScanData)
    (AlreadySeen : gset ModuleID) (Compilation : list string)
  : FullDependenciesResult * gset ModuleID :=
  if DeprecatedDriverCommand
  then getFullDependenciesLegacyDriverCommand Data AlreadySeen Compilation
  else takeFullDependencies Data AlreadySeen.

(** Inputs that fail the validation of [getFileDependencies], with the
    message each failure leaves. *)
Inductive Rejected : option DependencyScanningWorker -> Z -> option (list string)
                     -> string -> Prop :=
| Rejected_worker argc argv :
    Rejected None argc argv "missing CXDependencyScannerWorker"
| Rejected_argc Worker argc argv :
    (argc < 2)%Z -> Rejected (Some Worker) argc argv "invalid argc or argv"
| Rejected_argv Worker argc :
    Rejected (Some Worker) argc None "invalid argc or argv"
| Rejected_format Worker argc Args :
    (2 <= argc)%Z -> getFormat Worker <> Full ->
    Rejected (Some Worker) argc (Some Args) "unsupported CXDependencyMode for this API".

(** An engine whose error texts are never empty. *)
Definition engineMessagesNonEmpty (Worker : DependencyScanningWorker) : Prop :=
  forall WorkingDirectory Compilation ModuleName Paths Message,
    Finish (Engine Worker WorkingDirectory Compilation ModuleName) Paths
      = EngineError Message ->
    Message <> "".

(** What a returned entry-point call with a non-null [error] leaves behind:
    an empty error string next to a non-null result; next to a null result
    one of the validation messages or the text the engine failed with. *)
Definition errorContract {Ctx A : Type} (W : option DependencyScanningWorker)
    (argc : Z) (argv : option (list string)) (ModuleName : option string)
    (WorkingDirectory : string) (Result : option A) (s' : State Ctx) : Prop :=
  (is_Some Result -> errorCell s' = Some "") /\
  (Result = None ->
     exists Message,
       errorCell s' = Some Message /\
       ((Rejected W argc argv Message /\ Message <> "") \/
        (exists Worker Compilation Paths,
           W = Some Worker /\
           Finish (Engine Worker WorkingDirectory Compilation ModuleName) Paths
             = EngineError Message))) /\
  ((forall Worker, W = Some Worker -> engineMessagesNonEmpty Worker) ->
     (is_Some Result <-> errorCell s' = Some "")).

(** From [s] to [s1] only the lookup callback was invoked: the error cell is
    as it was and the trace grew by lookup events. *)
Definition lookupsOnly {Ctx : Type} (s s1 : State Ctx) : Prop :=
  errorCell s1 = errorCell s /\
  exists evs, trace s1 = trace s ++ evs /\ Forall (fun e => isMLO e = true) evs.

(** ** Decoding [moduleDeps] strings

    The reading of a [moduleDeps] string the specification prescribes:
    split at the last colon.  The source only encodes. *)

Fixpoint splitAtLastColon (s : string) : option (string * string) :=
  match s with
  | EmptyString => None
  | String c rest =>
      match splitAtLastColon rest with
      | Some (name, hash) => Some (String c name, hash)
      | None => if Ascii.eqb c ":" then Some (EmptyString, rest) else None
      end
  end.

Fixpoint containsColon (s : string) : bool :=
  match s with
  | EmptyString => false
  | String c rest => Ascii.eqb c ":" || containsColon rest
  end.

Definition decodeModuleID (s : string) : option ModuleID :=
  match splitAtLastColon s with
  | Some (name, hash) => Some (mkModuleID name hash)
  | None => None
  end.

(** ** Sample callbacks, engines and states

    Concrete inputs on which the definitions above are run.  The context
    of the sample callbacks counts their invocations. *)

Definition initialState (c : nat) : State nat := mkState [] c None ∅.

Definition ID_M : ModuleID := mkModuleID "M" "H1".

(** Always wants 300 bytes and writes as many ['a'] as fit. *)
Definition callback300 : CXModuleLookupOutputCallback nat :=
  fun c _ _ _ BufferSize => ((replicate (min 300 BufferSize) "a"%char, 300), S c).

(** Writes the five bytes of [M.pcm]. *)
Definition callbackShort : CXModuleLookupOutputCallback nat :=
  fun c _ _ _ _ => ((list_ascii_of_string "M.pcm", 5), S c).

(** Wants 300 bytes on its first invocation and 400 on every later one. *)
Definition callbackGrowing : CXModuleLookupOutputCallback nat :=
  fun c _ _ _ _ => (([], match c with 0 => 300 | _ => 400 end), S c).

(** The state after [callbackShort] resolved the module file of [ID_M]
    once from [initialState 0]. *)
Definition cachedState : State nat :=
  mkState [EvMLO "M" "H1" CXOutputKind_ModuleFile 256] 1 None
          (<[ID_M := "M.pcm"]> (<[ID_M := ""]> ∅)).

Definition ID_hex : ModuleID := mkModuleID "Foundation" "2F8A1C0D9E3B".

Definition sampleModule : ModuleDeps :=
  mkModuleDeps ID_M "M/module.modulemap" ["M/m.h"] [ID_hex] ["-cc1"; "-emit-module"].

Definition sampleLegacy (Compilation : list string) : FullDependencies :=
  mkFullDependencies (mkModuleID "a.cpp" "H0") ["a.h"] [ID_M; ID_hex]
    (tail Compilation ++ ["-fmodule-file=M.pcm"]) [].

Definition sampleTaken : FullDependencies :=
  mkFullDependencies (mkModuleID "a.cpp" "H0") ["a.h"] [ID_M; ID_hex] []
    [mkCommand "clang" ["-cc1"; "-c"; "a.cpp"]].

(** An engine that asks for the module file of [ID_M] twice and for its
    dependency file once, and reports one module. *)
Definition sampleEngine : string -> list string -> option string -> EngineRun :=
  fun _ _ _ =>
    mkEngineRun [(ID_M, ModuleFile); (ID_M, DependencyFile); (ID_M, ModuleFile)]
      (fun Paths =>
         EngineSuccess
           (mkScanData
              [mkModuleDeps ID_M "M/module.modulemap" ["M/m.h"] [ID_hex] ("-cc1" :: Paths)]
              sampleLegacy sampleTaken)).

(** An engine that reports [ID_M], [ID_hex] and [ID_M] again, without
    asking for any output path. *)
Definition repeatingEngine : string -> list string -> option string -> EngineRun :=
  fun _ _ _ =>
    mkEngineRun []
      (fun _ =>
         EngineSuccess
           (mkScanData
              [sampleModule;
               mkModuleDeps ID_hex "F/module.modulemap" [] [] ["-cc1"];
               sampleModule]
              sampleLegacy sampleTaken)).

(** An engine that reports one file dependency and no module. *)
Definition plainEngine : string -> list string -> option string -> EngineRun :=
  fun _ _ _ =>
    mkEngineRun []
      (fun _ =>
         EngineSuccess
           (mkScanData []
              (fun Compilation =>
                 mkFullDependencies (mkModuleID "a.cpp" "H0") ["a.h"] [] (tail Compilation) [])
              (mkFullDependencies (mkModuleID "a.cpp" "H0") ["a.h"] [] []
                 [mkCommand "clang" ["-cc1"; "-c"; "a.cpp"]]))).

(** An engine that fails with the given text. *)
Definition failingEngine (Message : string)
  : string -> list string -> option string -> EngineRun :=
  fun _ _ _ => mkEngineRun [] (fun _ => EngineError Message).

Definition fullService : DependencyScanningService :=
  clang_experimental_DependencyScannerService_create_v0 CXDependencyMode_Full.

Definition flatService : DependencyScanningService :=
  clang_experimental_DependencyScannerService_create_v0 CXDependencyMode_Flat.

Definition sampleWorker : DependencyScanningWorker :=
  clang_experimental_DependencyScannerWorker_create_v0 fullService sampleEngine.

Definition flatWorker : DependencyScanningWorker :=
  clang_experimental_DependencyScannerWorker_create_v0 flatService sampleEngine.

Definition repeatingWorker : DependencyScanningWorker :=
  clang_experimental_DependencyScannerWorker_create_v0 fullService repeatingEngine.

Definition plainWorker : DependencyScanningWorker :=
  clang_experimental_DependencyScannerWorker_create_v0 fullService plainEngine.

Definition failingWorker : DependencyScanningWorker :=
  clang_experimental_DependencyScannerWorker_create_v0 fullService
    (failingEngine "a.cpp: file not found").

Definition silentWorker : DependencyScanningWorker :=
  clang_experimental_DependencyScannerWorker_create_v0 fullService (failingEngine "").

Definition sampleCommand : list string := ["clang"; "-c"; "a.cpp"].

(** A legacy-mode scan of [sampleCommand] with [repeatingWorker]. *)
Definition repeatedScan : ScanRequest :=
  mkScanRequest repeatingWorker sampleCommand "/src" true None.

(** What [sampleEngine] finishes with when [callbackShort] answers. *)
Definition sampleData : ScanData :=
  mkScanData
    [mkModuleDeps ID_M "M/module.modulemap" ["M/m.h"] [ID_hex]
       ["-cc1"; "M.pcm"; "M.pcm"; "M.pcm"]]
    sampleLegacy sampleTaken.

(** The module set the discovery callback receives in the sample scan. *)
Definition sampleModuleSet : CXModuleDependencySet :=
  [mkCXModuleDependency "M" "H1" "M/module.modulemap" ["M/m.h"]
     ["Foundation:2F8A1C0D9E3B"] ["-cc1"; "M.pcm"; "M.pcm"; "M.pcm"]].

(** The state in which [sampleEngine] returns when run from
    [initialState 0] with [callbackShort]: the module file was looked up
    once and is cached, the dependency file was looked up once. *)
Definition sampleEngineState : State nat :=
  mkState
    [EvComputeDependencies "/src" sampleCommand None;
     EvMLO "M" "H1" CXOutputKind_ModuleFile 256;
     EvMLO "M" "H1" CXOutputKind_Dependencies 256]
    2 None (<[ID_M := "M.pcm"]> (<[ID_M := ""]> ∅)).

(** ** Further observations *)

(** The calls of the engine recorded in a trace, with their arguments. *)
Definition engineCalls (t : list Event) : list (string * list string * option string) :=
  omap (fun e => match e with
                 | EvComputeDependencies WD C MN => Some (WD, C, MN)
                 | _ => None
                 end) t.

(** The translation-unit records handed to the result handler. *)
Definition handlerCalls (t : list Event) : list FullDependencies :=
  omap (fun e => match e with EvHandleFullDeps FD => Some FD | _ => None end) t.

Definition withPCMPaths {Ctx : Type} (s : State Ctx) (P : gmap ModuleID string)
  : State Ctx :=
  mkState (trace s) (mloContext s) (errorCell s) P.

(** A callback whose report on the retry fits the buffer it asked for. *)
Definition retryFits {Ctx : Type} (MLO : CXModuleLookupOutputCallback Ctx) : Prop :=
  forall c Name Hash Kind,
    256 < (MLO c Name Hash Kind 256).1.2 ->
    (MLO (MLO c Name Hash Kind 256).2 Name Hash Kind (MLO c Name Hash Kind 256).1.2).1.2
      <= (MLO c Name Hash Kind 256).1.2.

Definition isModuleFile (Request : ModuleID * ModuleOutputKind) : Prop :=
  Request.2 = ModuleFile.

(** ** Disposal

    The dispose routines, as the calls they make on the members of the
    structure they are given: [Owner] is the index of the array element the
    member belongs to (0 for a structure that is not in an array). *)

Inductive Member :=
| Member_Name
| Member_ContextHash
| Member_ModuleMapPath
| Member_FileDeps
| Member_ModuleDeps
| Member_Executable
| Member_BuildArguments.

#[global] Instance Member_eq_dec : EqDecision Member.
Proof. solve_decision. Defined.

Inductive DisposeCall :=
| clang_disposeString (Owner : nat) (Which : Member) (S : CXString)
| clang_disposeStringSet (Owner : nat) (Which : Member) (Strings : CXStringSet)
| delete_array (Count : nat)
| delete_object.

(** The member a call releases, if it releases one. *)
Definition released (c : DisposeCall) : option (nat * Member) :=
  match c with
  | clang_disposeString Owner Which _ => Some (Owner, Which)
  | clang_disposeStringSet Owner Which _ => Some (Owner, Which)
  | _ => None
  end.

(** The body of the loop of [clang_experimental_ModuleDependencySet_dispose]
    from index [I] on. *)
Fixpoint disposeModulesFrom (I : nat) (Modules : list CXModuleDependency)
  : list DisposeCall :=
  match Modules with
  | [] => []
  | MD :: Rest =>
      [clang_disposeString I Member_Name (Name MD);
       clang_disposeString I Member_ContextHash (M_ContextHash MD);
       clang_disposeString I Member_ModuleMapPath (ModuleMapPath MD);
       clang_disposeStringSet I Member_FileDeps (M_FileDeps MD);
       clang_disposeStringSet I Member_ModuleDeps (M_ModuleDeps MD)]
      ++ disposeModulesFrom (S I) Rest
  end.

Definition clang_experimental_ModuleDependencySet_dispose
    (MDS : CXModuleDependencySet) : list DisposeCall :=
  disposeModulesFrom 0 MDS ++ [delete_array (length MDS); delete_object].

Definition clang_experimental_FileDependencies_dispose (ID : CXFileDependencies)
  : list DisposeCall :=
  [clang_disposeString 0 Member_ContextHash (F_ContextHash ID);
   clang_disposeStringSet 0 Member_FileDeps (F_FileDeps ID);
   clang_disposeStringSet 0 Member_ModuleDeps (F_ModuleDeps ID);
   delete_object].

(** The body of the loop of [clang_experimental_FileDependencies_dispose_v4]
    from index [I] on. *)
Fixpoint disposeCommandsFrom (I : nat) (Cmds : list CXTranslationUnitCommand)
  : list DisposeCall :=
  match Cmds with
  | [] => []
  | C :: Rest =>
      [clang_disposeString I Member_ContextHash (C_ContextHash C);
       clang_disposeStringSet I Member_FileDeps (C_FileDeps C);
       clang_disposeStringSet I Member_ModuleDeps (C_ModuleDeps C);
       clang_disposeString I Member_Executable (Executable C);
       clang_disposeStringSet I Member_BuildArguments (C_BuildArguments C)]
      ++ disposeCommandsFrom (S I) Rest
  end.

Definition clang_experimental_FileDependencies_dispose_v4
    (FD : CXFileDependencies_v4) : list DisposeCall :=
  disposeCommandsFrom 0 FD ++ [delete_array (length FD); delete_object].

(** The members [Which] of the array elements [Index], ..., [Index + n - 1],
    element by element. *)
Definition memberKeys (Which : list Member) (Index n : nat) : list (nat * Member) :=
  concat (map (fun Owner => map (pair Owner) Which) (seq Index n)).

Definition moduleMembers : list Member :=
  [Member_Name; Member_ContextHash; Member_ModuleMapPath;
   Member_FileDeps; Member_ModuleDeps].

Definition commandMembers : list Member :=
  [Member_ContextHash; Member_FileDeps; Member_ModuleDeps;
   Member_Executable; Member_BuildArguments].

(** ** Basic facts *)

Lemma length_overwrite (Buffer Out : list ascii) :
  length (overwrite Buffer Out) = length Buffer.
Proof.
  unfold overwrite. rewrite length_app, length_take, length_drop. lia.
Qed.

Lemma length_resize (Buffer : list ascii) (Len : nat) :
  length (resize Buffer Len) = Len.
Proof.
  unfold resize. rewrite length_app, length_take, length_replicate. lia.
Qed.

Lemma length_string_of_list (l : list ascii) :
  String.length (string_of_list_ascii l) = length l.
Proof. induction l as [|c l IH]; simpl; congruence. Qed.

Lemma mloCount_app (t u : list Event) : mloCount (t ++ u) = mloCount t + mloCount u.
Proof. unfold mloCount. by rewrite filter_app, length_app. Qed.

Lemma mloSizes_app (t u : list Event) : mloSizes (t ++ u) = mloSizes t ++ mloSizes u.
Proof. unfold mloSizes. apply omap_app. Qed.

Lemma mdcCalls_app (t u : list Event) : mdcCalls (t ++ u) = mdcCalls t ++ mdcCalls u.
Proof. unfold mdcCalls. apply omap_app. Qed.

Lemma reportedIDs_app (t u : list Event) :
  reportedIDs (t ++ u) = reportedIDs t ++ reportedIDs u.
Proof. unfold reportedIDs. by rewrite mdcCalls_app, map_app, concat_app. Qed.

Lemma nonMLO_app (t u : list Event) : nonMLO (t ++ u) = nonMLO t ++ nonMLO u.
Proof. unfold nonMLO. apply filter_app. Qed.

Section LookupFacts.

Context {Ctx : Type}.
Implicit Types (MLO : CXModuleLookupOutputCallback Ctx) (s : State Ctx).

(** The whole of [lookupModuleOutput] in one equation: one invocation with
    256 bytes, a second one with exactly the reported length when that
    exceeds 256, and the string built from what the last invocation
    returned. *)
Lemma lookupModuleOutput_eq MLO ID MOK s :
  lookupModuleOutput ID MOK MLO s =
  let Ev := EvMLO (ModuleName ID) (ContextHash ID) (wrap MOK) in
  let '(Out1, Len1, c1) :=
    MLO (mloContext s) (ModuleName ID) (ContextHash ID) (wrap MOK) 256 in
  let Buffer1 := overwrite (replicate 256 Ascii.zero) Out1 in
  if decide (256 < Len1) then
    let '(Out2, Len2, c2) :=
      MLO c1 (ModuleName ID) (ContextHash ID) (wrap MOK) Len1 in
    let Buffer2 := overwrite (resize Buffer1 Len1) Out2 in
    ((if decide (Len2 <= Len1)
      then Ret (string_of_list_ascii (take Len2 Buffer2))
      else Stop (BufferOverread Len2 Len1)),
     mkState (trace s ++ [Ev 256; Ev Len1]) c2 (errorCell s) (PCMPaths s))
  else
    (Ret (string_of_list_ascii (take Len1 Buffer1)),
     mkState (trace s ++ [Ev 256]) c1 (errorCell s) (PCMPaths s)).
Proof.
  unfold lookupModuleOutput, bind, callMLO, stringFromBuffer.
  rewrite length_replicate.
  destruct (MLO (mloContext s) _ _ _ 256) as [[Out1 Len1] c1]; cbn [trace mloContext errorCell PCMPaths].
  rewrite length_overwrite, length_replicate.
  destruct (decide (256 < Len1)) as [Hgt|Hle].
  - cbn [trace mloContext errorCell PCMPaths]. rewrite length_resize.
    destruct (MLO c1 _ _ _ Len1) as [[Out2 Len2] c2].
    cbn [trace mloContext errorCell PCMPaths].
    rewrite length_overwrite, length_resize, <- app_assoc.
    destruct (decide (Len2 <= Len1)); reflexivity.
  - unfold ret. rewrite length_overwrite, length_replicate.
    destruct (decide (Len1 <= 256)); [reflexivity | lia].
Qed.

End LookupFacts.

(** ** The size negotiation of [lookupModuleOutput] *)

Section Negotiation.

Context {Ctx : Type}.
Implicit Types (MLO : CXModuleLookupOutputCallback Ctx) (s : State Ctx).

(** C4.  The lookup callback is first invoked with a 256-byte buffer.  When
    the length it reports fits, that is the only invocation and the
    returned string has the reported length.  When the reported length
    exceeds 256 the callback is invoked exactly once more, with a buffer of
    exactly the reported length, and when the second report fits that
    buffer the returned string has the length of the second report; in
    particular a callback reporting 300 is invoked with 256 and then with
    300 bytes and the returned string has length 300. *)
Theorem lookupModuleOutput_negotiation MLO ID MOK s Out1 Len1 c1 Out2 Len2 c2 :
  MLO (mloContext s) (ModuleName ID) (ContextHash ID) (wrap MOK) 256
    = (Out1, Len1, c1) ->
  MLO c1 (ModuleName ID) (ContextHash ID) (wrap MOK) Len1 = (Out2, Len2, c2) ->
  let r := lookupModuleOutput ID MOK MLO s in
  let Ev := EvMLO (ModuleName ID) (ContextHash ID) (wrap MOK) in
  (Len1 <= 256 ->
     trace r.2 = trace s ++ [Ev 256] /\
     exists Path, r.1 = Ret Path /\ String.length Path = Len1) /\
  (256 < Len1 ->
     trace r.2 = trace s ++ [Ev 256; Ev Len1] /\
     (Len2 <= Len1 -> exists Path, r.1 = Ret Path /\ String.length Path = Len2)) /\
  (Len1 = 300 -> Len2 = 300 ->
     mloSizes (trace r.2) = mloSizes (trace s) ++ [256; 300] /\
     exists Path, r.1 = Ret Path /\ String.length Path = 300).
Proof.
  intros H1 H2 r Ev. subst r. rewrite lookupModuleOutput_eq. cbv zeta.
  rewrite H1.
  destruct (decide (256 < Len1)) as [Hgt|Hle].
  - rewrite H2. cbn [fst snd trace].
    split; [lia|]. split.
    + intros _. split; [reflexivity|]. intros Hfit.
      destruct (decide (Len2 <= Len1)); [|lia].
      eexists; split; [reflexivity|].
      rewrite length_string_of_list, length_take, length_overwrite, length_resize. lia.
    + intros -> ->. split.
      * by rewrite mloSizes_app.
      * destruct (decide (300 <= 300)); [|lia].
        eexists; split; [reflexivity|].
        rewrite length_string_of_list, length_take, length_overwrite, length_resize. lia.
  - cbn [fst snd trace]. split; [|split; [lia|lia]].
    intros _. split; [reflexivity|].
    eexists; split; [reflexivity|].
    rewrite length_string_of_list, length_take, length_overwrite, length_replicate. lia.
Qed.

(** When the second report exceeds the buffer it was made against, no third
    invocation follows and the string constructor is reached with a length
    larger than the buffer. *)
Lemma lookupModuleOutput_second_misreport MLO ID MOK s Out1 Len1 c1 Out2 Len2 c2 :
  MLO (mloContext s) (ModuleName ID) (ContextHash ID) (wrap MOK) 256
    = (Out1, Len1, c1) ->
  MLO c1 (ModuleName ID) (ContextHash ID) (wrap MOK) Len1 = (Out2, Len2, c2) ->
  256 < Len1 -> Len1 < Len2 ->
  (lookupModuleOutput ID MOK MLO s).1 = Stop (BufferOverread Len2 Len1) /\
  mloSizes (trace (lookupModuleOutput ID MOK MLO s).2)
    = mloSizes (trace s) ++ [256; Len1].
Proof.
  intros H1 H2 Hgt Hmis. rewrite lookupModuleOutput_eq. cbv zeta.
  rewrite H1. destruct (decide (256 < Len1)); [|lia]. rewrite H2.
  cbn [fst snd trace]. destruct (decide (Len2 <= Len1)); [lia|].
  split; [reflexivity|]. by rewrite mloSizes_app.
Qed.

End Negotiation.

(** The negotiation at the callback that reports 300: sizes 256 and 300,
    a path of 300 bytes. *)
Lemma lookupModuleOutput_negotiation_witness :
  mloSizes (trace (lookupModuleOutput ID_M ModuleFile callback300 (initialState 0)).2)
    = [256; 300] /\
  exists Path,
    (lookupModuleOutput ID_M ModuleFile callback300 (initialState 0)).1 = Ret Path /\
    String.length Path = 300.
Proof.
  pose proof (lookupModuleOutput_negotiation callback300 ID_M ModuleFile
                (initialState 0) _ _ _ _ _ _ eq_refl eq_refl) as H.
  cbv zeta in H. destruct H as (_ & _ & H).
  exact (H eq_refl eq_refl).
Defined.

(** C5.  At the callback that reports 300 and then 400, the lookup invokes
    it with 256 and with 300 bytes and then reaches the string constructor
    with length 400 on the 300-byte buffer: no check follows the second
    invocation, nothing is reported as fatal, and the string asked for is
    longer than the buffer. *)
Theorem lookupModuleOutput_growing_overread :
  (lookupModuleOutput ID_M ModuleFile callbackGrowing (initialState 0)).1
    = Stop (BufferOverread 400 300) /\
  mloSizes (trace (lookupModuleOutput ID_M ModuleFile callbackGrowing (initialState 0)).2)
    = [256; 300].
Proof.
  exact (lookupModuleOutput_second_misreport callbackGrowing ID_M ModuleFile
           (initialState 0) _ _ _ _ _ _ eq_refl eq_refl
           ltac:(lia) ltac:(lia)).
Qed.

(** ** The PCM path cache of [OutputLookup] *)

Section Cache.

Context {Ctx : Type}.
Implicit Types (MLO : CXModuleLookupOutputCallback Ctx) (s : State Ctx).

Lemma OutputLookup_other_kind MLO ID MOK s :
  MOK <> ModuleFile ->
  OutputLookup_lookupModuleOutput MLO ID MOK s = lookupModuleOutput ID MOK MLO s.
Proof.
  intros Hk. unfold OutputLookup_lookupModuleOutput.
  destruct (decide (MOK <> ModuleFile)); [reflexivity | contradiction].
Qed.

Lemma OutputLookup_hit MLO ID s Path :
  PCMPaths s !! ID = Some Path ->
  OutputLookup_lookupModuleOutput MLO ID ModuleFile s = (Ret Path, s).
Proof.
  intros Hhit. unfold OutputLookup_lookupModuleOutput.
  destruct (decide (ModuleFile <> ModuleFile)); [contradiction|].
  unfold bind, getPCMPaths. by rewrite Hhit.
Qed.

Lemma OutputLookup_miss MLO ID s :
  PCMPaths s !! ID = None ->
  OutputLookup_lookupModuleOutput MLO ID ModuleFile s =
  let r := lookupModuleOutput ID ModuleFile MLO
             (mkState (trace s) (mloContext s) (errorCell s) (<[ID := ""]> (PCMPaths s))) in
  match r.1 with
  | Ret Path =>
      (Ret Path,
       mkState (trace r.2) (mloContext r.2) (errorCell r.2) (<[ID := Path]> (PCMPaths r.2)))
  | Stop e => (Stop e, r.2)
  end.
Proof.
  intros Hmiss. unfold OutputLookup_lookupModuleOutput.
  destruct (decide (ModuleFile <> ModuleFile)); [contradiction|].
  unfold bind at 1. unfold getPCMPaths at 1. rewrite Hmiss.
  unfold bind, setPCMPaths, getPCMPaths, ret. cbv zeta.
  destruct (lookupModuleOutput _ _ _ _) as [[Path|e] s1]; reflexivity.
Qed.

(** Number of callback invocations one [lookupModuleOutput] makes. *)
Lemma lookupModuleOutput_count MLO ID MOK s :
  mloCount (trace (lookupModuleOutput ID MOK MLO s).2) =
  mloCount (trace s) +
  (if decide ((MLO (mloContext s) (ModuleName ID) (ContextHash ID) (wrap MOK) 256).1.2 <= 256)
   then 1 else 2).
Proof.
  rewrite lookupModuleOutput_eq. cbv zeta.
  destruct (MLO (mloContext s) _ _ _ 256) as [[Out1 Len1] c1]. cbn [fst snd].
  destruct (decide (256 < Len1)), (decide (Len1 <= 256)); try lia.
  - destruct (MLO c1 _ _ _ Len1) as [[Out2 Len2] c2]. cbn [snd trace].
    by rewrite mloCount_app.
  - cbn [snd trace]. by rewrite mloCount_app.
Qed.

Lemma lookupModuleOutput_PCMPaths MLO ID MOK s :
  PCMPaths (lookupModuleOutput ID MOK MLO s).2 = PCMPaths s.
Proof.
  rewrite lookupModuleOutput_eq. cbv zeta.
  destruct (MLO (mloContext s) _ _ _ 256) as [[Out1 Len1] c1].
  destruct (decide (256 < Len1)); [|reflexivity].
  by destruct (MLO c1 _ _ _ Len1) as [[Out2 Len2] c2].
Qed.

(** C3, as the code has it.  With the kind "module file" and an identity
    the cache does not hold yet, a first [resolve] that returns invokes the
    callback once when the first reported length fits the 256-byte buffer
    and twice when it does not, and a second [resolve] with the same
    identity returns the same string without invoking the callback or
    changing any state.  With any other kind every [resolve] is one
    uncached [lookupModuleOutput]: it invokes the callback at least once
    and leaves the cache as it was. *)
Theorem OutputLookup_lookupModuleOutput_caching MLO ID s Path s1 MOK s' :
  PCMPaths s !! ID = None ->
  OutputLookup_lookupModuleOutput MLO ID ModuleFile s = (Ret Path, s1) ->
  MOK <> ModuleFile ->
  (mloCount (trace s1) =
     mloCount (trace s) +
     (if decide ((MLO (mloContext s) (ModuleName ID) (ContextHash ID)
                      CXOutputKind_ModuleFile 256).1.2 <= 256)
      then 1 else 2) /\
   OutputLookup_lookupModuleOutput MLO ID ModuleFile s1 = (Ret Path, s1)) /\
  (OutputLookup_lookupModuleOutput MLO ID MOK s' = lookupModuleOutput ID MOK MLO s' /\
   mloCount (trace s') < mloCount (trace (OutputLookup_lookupModuleOutput MLO ID MOK s').2) /\
   PCMPaths (OutputLookup_lookupModuleOutput MLO ID MOK s').2 = PCMPaths s').
Proof.
  intros Hmiss Hfirst Hk. split.
  - rewrite (OutputLookup_miss _ _ _ Hmiss) in Hfirst. cbv zeta in Hfirst.
    pose proof (lookupModuleOutput_count MLO ID ModuleFile
      (mkState (trace s) (mloContext s) (errorCell s) (<[ID := ""]> (PCMPaths s)))) as Hcount.
    destruct (lookupModuleOutput _ _ _ _) as [[p|e] s2]; cbn [fst snd] in *; [|discriminate].
    injection Hfirst as -> <-. cbn [trace mloContext] in *. split; [exact Hcount|].
    apply OutputLookup_hit. cbn [PCMPaths]. apply lookup_insert_eq.
  - rewrite (OutputLookup_other_kind _ _ _ _ Hk). split; [reflexivity|]. split.
    + rewrite lookupModuleOutput_count. case_decide; lia.
    + apply lookupModuleOutput_PCMPaths.
Qed.

End Cache.

(** A path of 300 bytes: the first [resolve] of a not yet cached identity
    takes two invocations of the callback, the second none. *)
Lemma OutputLookup_long_path_run :
  let r1 := OutputLookup_lookupModuleOutput callback300 ID_M ModuleFile (initialState 0) in
  let r2 := OutputLookup_lookupModuleOutput callback300 ID_M ModuleFile r1.2 in
  (exists Path, r1.1 = Ret Path /\ r2.1 = Ret Path) /\
  mloCount (trace r1.2) = 2 /\ mloCount (trace r2.2) = 2.
Proof.
  cbv zeta.
  assert (Hmiss : PCMPaths (initialState 0) !! ID_M = None) by apply lookup_empty.
  rewrite (OutputLookup_miss _ _ _ Hmiss). cbv zeta.
  pose proof (lookupModuleOutput_count callback300 ID_M ModuleFile
    (mkState (trace (initialState 0)) (mloContext (initialState 0))
       (errorCell (initialState 0)) (<[ID_M := ""]> (PCMPaths (initialState 0))))) as Hcount.
  assert (Hret : exists p, (lookupModuleOutput ID_M ModuleFile callback300
    (mkState (trace (initialState 0)) (mloContext (initialState 0))
       (errorCell (initialState 0)) (<[ID_M := ""]> (PCMPaths (initialState 0))))).1 = Ret p).
  { rewrite lookupModuleOutput_eq. cbv zeta. cbn [callback300 mloContext initialState].
    destruct (decide (256 < 300)); [|lia]. cbn [fst].
    destruct (decide (300 <= 300)); [|lia]. eauto. }
  destruct Hret as [p Hp].
  destruct (lookupModuleOutput _ _ _ _) as [o s2]. cbn [fst snd] in *. subst o.
  cbn [fst snd trace].
  rewrite (OutputLookup_hit callback300 ID_M _ p) by (cbn [PCMPaths]; apply lookup_insert_eq).
  cbn [fst snd trace]. split; [eauto|]. split; exact Hcount.
Qed.

(** The literal reading of C3 (two [resolve] calls, exactly one invocation
    of the callback) fails for a path longer than the 256-byte buffer. *)
Lemma OutputLookup_not_exactly_one_invocation :
  ~ (forall (MLO : CXModuleLookupOutputCallback nat) (ID : ModuleID) (s : State nat),
       PCMPaths s !! ID = None ->
       let r1 := OutputLookup_lookupModuleOutput MLO ID ModuleFile s in
       let r2 := OutputLookup_lookupModuleOutput MLO ID ModuleFile r1.2 in
       mloCount (trace r2.2) = mloCount (trace s) + 1).
Proof.
  intros H.
  specialize (H callback300 ID_M (initialState 0) (lookup_empty _)).
  cbv zeta in H.
  destruct OutputLookup_long_path_run as (_ & _ & H2). cbv zeta in H2.
  rewrite H2 in H. discriminate H.
Qed.

Lemma OutputLookup_short_path_first :
  OutputLookup_lookupModuleOutput callbackShort ID_M ModuleFile (initialState 0)
    = (Ret "M.pcm", cachedState).
Proof.
  rewrite OutputLookup_miss by apply lookup_empty.
  cbv zeta. rewrite lookupModuleOutput_eq. reflexivity.
Qed.

(** The cache at [callbackShort]: one invocation for the first [resolve]
    of [ID_M], none for the second; the dependency file is looked up
    afresh. *)
Lemma OutputLookup_lookupModuleOutput_caching_witness :
  (mloCount (trace cachedState) =
     mloCount (trace (initialState 0)) +
     (if decide ((callbackShort (mloContext (initialState 0)) (ModuleName ID_M)
                    (ContextHash ID_M) CXOutputKind_ModuleFile 256).1.2 <= 256)
      then 1 else 2) /\
   OutputLookup_lookupModuleOutput callbackShort ID_M ModuleFile cachedState
     = (Ret "M.pcm", cachedState)) /\
  (OutputLookup_lookupModuleOutput callbackShort ID_M DependencyFile cachedState
     = lookupModuleOutput ID_M DependencyFile callbackShort cachedState /\
   mloCount (trace cachedState)
     < mloCount (trace (OutputLookup_lookupModuleOutput callbackShort ID_M
                          DependencyFile cachedState).2) /\
   PCMPaths (OutputLookup_lookupModuleOutput callbackShort ID_M
               DependencyFile cachedState).2 = PCMPaths cachedState).
Proof.
  apply (OutputLookup_lookupModuleOutput_caching callbackShort ID_M
           (initialState 0) "M.pcm" cachedState DependencyFile cachedState).
  - apply lookup_empty.
  - apply OutputLookup_short_path_first.
  - discriminate.
Defined.

(** ** The encoding of module dependencies *)

Lemma splitAtLastColon_no_colon (h : string) :
  containsColon h = false -> splitAtLastColon h = None.
Proof.
  induction h as [|c h IH]; [reflexivity|].
  cbn [containsColon splitAtLastColon]. intros Hc.
  apply orb_false_iff in Hc as [Hc Hh]. by rewrite (IH Hh), Hc.
Qed.

Lemma splitAtLastColon_append (n h : string) :
  containsColon h = false ->
  splitAtLastColon (n +:+ ":" +:+ h) = Some (n, h).
Proof.
  intros Hh. induction n as [|c n IH].
  - change (splitAtLastColon (String ":" h) = Some (EmptyString, h)).
    cbn [splitAtLastColon]. by rewrite (splitAtLastColon_no_colon _ Hh).
  - change (splitAtLastColon (String c (n +:+ ":" +:+ h)) = Some (String c n, h)).
    cbn [splitAtLastColon]. by rewrite IH.
Qed.

Lemma decode_moduleDepStrings (Deps : list ModuleID) :
  Forall (fun MID => containsColon (ContextHash MID) = false) Deps ->
  map decodeModuleID (moduleDepStrings Deps) = map Some Deps.
Proof.
  unfold moduleDepStrings.
  induction 1 as [|[n h] Deps Hh _ IH]; [reflexivity|].
  cbn [map]. rewrite IH. f_equal.
  unfold decodeModuleID, moduleDepString. cbn [ModuleName ContextHash] in *.
  by rewrite (splitAtLastColon_append _ _ Hh).
Qed.

(** C6.  In the module set handed to the discovery callback, in the v3
    record and in every v4 command record, [ModuleDeps] holds, for each
    module dependency in order, the string name + ":" + context hash; and
    when no context hash contains a colon, splitting each of these strings
    at its last colon gives back the identities they were made from. *)
Theorem moduleDeps_encoding_roundtrip {Ctx : Type}
    (MD : ModuleDeps) (FD : FullDependencies) (C : Command)
    (s s' : State Ctx) (F : CXFileDependencies) :
  Forall (fun MID => containsColon (ContextHash MID) = false) (MD_ClangModuleDeps MD) ->
  Forall (fun MID => containsColon (ContextHash MID) = false) (FD_ClangModuleDeps FD) ->
  HandleFullDeps_v3 FD s = (Ret F, s') ->
  let encode := fun MID => ModuleName MID +:+ ":" +:+ ContextHash MID in
  (M_ModuleDeps (makeModuleDependency MD) = map encode (MD_ClangModuleDeps MD) /\
   F_ModuleDeps F = map encode (FD_ClangModuleDeps FD) /\
   C_ModuleDeps (makeTranslationUnitCommand FD C) = map encode (FD_ClangModuleDeps FD)) /\
  (map decodeModuleID (M_ModuleDeps (makeModuleDependency MD))
     = map Some (MD_ClangModuleDeps MD) /\
   map decodeModuleID (F_ModuleDeps F) = map Some (FD_ClangModuleDeps FD) /\
   map decodeModuleID (C_ModuleDeps (makeTranslationUnitCommand FD C))
     = map Some (FD_ClangModuleDeps FD)).
Proof.
  intros HMD HFD Hv3 encode.
  assert (HF : F_ModuleDeps F = moduleDepStrings (FD_ClangModuleDeps FD)).
  { unfold HandleFullDeps_v3, bind, assert in Hv3.
    destruct (negb (is_empty (DriverCommandLine FD))); cbn in Hv3; [|discriminate].
    by injection Hv3 as <- _. }
  rewrite HF. cbn [makeModuleDependency makeTranslationUnitCommand M_ModuleDeps C_ModuleDeps].
  split; [by repeat split|].
  by rewrite !decode_moduleDepStrings.
Qed.

(** The round trip at [sampleModule] and at the legacy record of the
    command [clang -c a.cpp]. *)
Lemma moduleDeps_encoding_roundtrip_witness :
  M_ModuleDeps (makeModuleDependency sampleModule) = ["Foundation:2F8A1C0D9E3B"] /\
  map decodeModuleID (M_ModuleDeps (makeModuleDependency sampleModule)) = [Some ID_hex] /\
  map decodeModuleID ["M:H1"; "Foundation:2F8A1C0D9E3B"] = [Some ID_M; Some ID_hex].
Proof.
  pose proof (moduleDeps_encoding_roundtrip (Ctx := nat) sampleModule
    (sampleLegacy ["clang"; "-c"; "a.cpp"]) (mkCommand "clang" [])
    (initialState 0) (initialState 0)
    (mkCXFileDependencies "H0" ["a.h"] ["M:H1"; "Foundation:2F8A1C0D9E3B"]
       ["-c"; "a.cpp"; "-fmodule-file=M.pcm"])
    ltac:(repeat constructor) ltac:(repeat constructor) eq_refl) as H.
  cbv zeta in H.
  destruct H as ((H1 & _ & _) & (H2 & H3 & _)).
  split; [exact H1 | split; [exact H2 | exact H3]].
Defined.

(** A context hash with a colon in it does not survive the round trip. *)
Lemma decodeModuleID_colon_in_hash :
  decodeModuleID (moduleDepString (mkModuleID "M" "H:1")) = Some (mkModuleID "M:H" "1").
Proof. reflexivity. Qed.

(** ** The engine phase *)

Section EnginePhase.

Context {Ctx : Type}.
Implicit Types (MLO : CXModuleLookupOutputCallback Ctx) (s : State Ctx).

Lemma lookupsOnly_refl s : lookupsOnly s s.
Proof. split; [reflexivity|]. exists []. by rewrite app_nil_r. Qed.

Lemma lookupsOnly_trans s s1 s2 :
  lookupsOnly s s1 -> lookupsOnly s1 s2 -> lookupsOnly s s2.
Proof.
  intros [He1 (evs1 & Ht1 & Hf1)] [He2 (evs2 & Ht2 & Hf2)]. split; [congruence|].
  exists (evs1 ++ evs2). rewrite Ht2, Ht1, app_assoc. split; [reflexivity|].
  by apply Forall_app.
Qed.

Lemma lookupModuleOutput_lookupsOnly MLO ID MOK s :
  lookupsOnly s (lookupModuleOutput ID MOK MLO s).2.
Proof.
  rewrite lookupModuleOutput_eq. cbv zeta.
  destruct (MLO (mloContext s) _ _ _ 256) as [[Out1 Len1] c1].
  destruct (decide (256 < Len1)).
  - destruct (MLO c1 _ _ _ Len1) as [[Out2 Len2] c2]. split; [reflexivity|].
    eexists; split; [reflexivity|]. by repeat constructor.
  - split; [reflexivity|]. eexists; split; [reflexivity|]. by repeat constructor.
Qed.

Lemma OutputLookup_lookupsOnly MLO ID MOK s :
  lookupsOnly s (OutputLookup_lookupModuleOutput MLO ID MOK s).2.
Proof.
  destruct (decide (MOK = ModuleFile)) as [->|Hk].
  - destruct (PCMPaths s !! ID) as [Path|] eqn:Hc.
    + rewrite (OutputLookup_hit _ _ _ _ Hc). apply lookupsOnly_refl.
    + rewrite (OutputLookup_miss _ _ _ Hc). cbv zeta.
      pose proof (lookupModuleOutput_lookupsOnly MLO ID ModuleFile
        (mkState (trace s) (mloContext s) (errorCell s) (<[ID := ""]> (PCMPaths s)))) as H.
      destruct (lookupModuleOutput _ _ _ _) as [[Path|e] s1]; exact H.
  - rewrite (OutputLookup_other_kind _ _ _ _ Hk). apply lookupModuleOutput_lookupsOnly.
Qed.

Lemma lookupAll_lookupsOnly MLO Requests s :
  lookupsOnly s (lookupAll (OutputLookup_lookupModuleOutput MLO) Requests s).2.
Proof.
  revert s. induction Requests as [|[ID MOK] Rest IH]; intros s.
  - apply lookupsOnly_refl.
  - cbn [lookupAll]. unfold bind at 1.
    pose proof (OutputLookup_lookupsOnly MLO ID MOK s) as H1.
    destruct (OutputLookup_lookupModuleOutput MLO ID MOK s) as [[Path|e] s1]; [|exact H1].
    unfold bind. specialize (IH s1).
    destruct (lookupAll _ Rest s1) as [[Paths|e] s2]; cbn [snd] in *;
      eapply lookupsOnly_trans; eauto.
Qed.

(** The engine phase records the call of the engine and then lookups only. *)
Lemma computeDependencies_trace MLO Worker WorkingDirectory Compilation ModuleName s :
  lookupsOnly
    (withEvents s [EvComputeDependencies WorkingDirectory Compilation ModuleName])
    (computeDependencies Worker WorkingDirectory Compilation
       (OutputLookup_lookupModuleOutput MLO) ModuleName s).2.
Proof.
  unfold computeDependencies, bind at 1, emit. fold (withEvents s
    [EvComputeDependencies WorkingDirectory Compilation ModuleName]).
  cbv zeta. unfold bind.
  pose proof (lookupAll_lookupsOnly MLO
    (Lookups (Engine Worker WorkingDirectory Compilation ModuleName))
    (withEvents s [EvComputeDependencies WorkingDirectory Compilation ModuleName])) as H.
  destruct (lookupAll _ _ _) as [[Paths|e] s1]; exact H.
Qed.

(** What the engine finished with is what its [Finish] says. *)
Lemma computeDependencies_outcome MLO Worker WorkingDirectory Compilation ModuleName s
    Result s1 :
  computeDependencies Worker WorkingDirectory Compilation
    (OutputLookup_lookupModuleOutput MLO) ModuleName s = (Ret Result, s1) ->
  exists Paths,
    Finish (Engine Worker WorkingDirectory Compilation ModuleName) Paths = Result.
Proof.
  unfold computeDependencies, bind at 1, emit. cbv zeta. unfold bind.
  destruct (lookupAll _ _ _) as [[Paths|e] s2]; [|discriminate].
  unfold ret. intros [= <- _]. eauto.
Qed.

Lemma lookupsOnly_mdcCalls s s1 evs :
  lookupsOnly (withEvents s evs) s1 ->
  mdcCalls (trace s1) = mdcCalls (trace s) ++ mdcCalls evs.
Proof.
  intros [_ (ls & Ht & Hf)]. rewrite Ht. cbn [withEvents trace].
  rewrite !mdcCalls_app.
  assert (Hnil : mdcCalls ls = []).
  { clear Ht. induction Hf as [|e ls He _ IH]; [reflexivity|].
    destruct e; try discriminate. exact IH. }
  by rewrite Hnil, app_nil_r.
Qed.

Lemma lookupsOnly_nonMLO s s1 evs :
  lookupsOnly (withEvents s evs) s1 ->
  nonMLO (trace s1) = nonMLO (trace s) ++ nonMLO evs.
Proof.
  intros [_ (ls & Ht & Hf)]. rewrite Ht. cbn [withEvents trace].
  rewrite !nonMLO_app.
  assert (Hnil : nonMLO ls = []).
  { clear Ht. induction Hf as [|e ls He _ IH]; [reflexivity|].
    unfold nonMLO in *. rewrite filter_cons_False; [exact IH|]. by rewrite He. }
  by rewrite Hnil, app_nil_r.
Qed.

End EnginePhase.

(** ** The scan driver and the entry points, case by case *)

Section Driver.

Context {Ctx : Type}.
Implicit Types (MLO : CXModuleLookupOutputCallback Ctx) (s : State Ctx).

Lemma consumerResult_eq Dep Data AlreadySeen Compilation :
  consumerResult Dep Data AlreadySeen Compilation =
  (mkFDR (discover (ReportedModules Data) AlreadySeen).1
         (if Dep then LegacyFullDeps Data Compilation else TakenFullDeps Data),
   (discover (ReportedModules Data) AlreadySeen).2).
Proof.
  unfold consumerResult, getFullDependenciesLegacyDriverCommand, takeFullDependencies.
  destruct Dep, (discover _ _); reflexivity.
Qed.

Lemma getFullDependenciesFrom_eq {R : Type} AlreadySeen Worker Compilation
    WorkingDirectory error (LookupOutput : ModuleID -> ModuleOutputKind -> M Ctx string)
    Dep ModuleName (HandleFullDeps : FullDependencies -> M Ctx R) s :
  getFullDependenciesFrom AlreadySeen Worker Compilation WorkingDirectory error
    LookupOutput Dep ModuleName HandleFullDeps s =
  match computeDependencies Worker WorkingDirectory Compilation LookupOutput ModuleName s with
  | (Stop e, s1) => (Stop e, s1)
  | (Ret (EngineError Message), s1) =>
      match error with
      | NullPtr => (Stop NullStore, s1)
      | ErrorPtr => (Ret ((false, None), AlreadySeen), withError s1 Message)
      end
  | (Ret (EngineSuccess Data), s1) =>
      let FDRS := consumerResult Dep Data AlreadySeen Compilation in
      match HandleFullDeps (FullDeps FDRS.1) (withEvents s1 (notifications FDRS.1)) with
      | (Ret FDeps, s2) => (Ret ((true, Some FDeps), FDRS.2), s2)
      | (Stop e, s2) => (Stop e, s2)
      end
  end.
Proof.
  unfold getFullDependenciesFrom, bind at 1.
  destruct (computeDependencies _ _ _ _ _ s) as [[[Message|Data]|e] s1]; [| |reflexivity].
  - destruct error; reflexivity.
  - fold (consumerResult Dep Data AlreadySeen Compilation). cbv zeta.
    destruct (consumerResult Dep Data AlreadySeen Compilation) as [FDR Seen].
    cbn [fst snd]. unfold notifications, withEvents.
    destruct (is_empty (DiscoveredModules FDR)); cbn [negb];
      unfold bind, emit, ret; cbn [trace mloContext errorCell PCMPaths];
      rewrite <- ?app_assoc; reflexivity.
Qed.

Lemma getFullDependencies_eq {R : Type} Worker Compilation
    WorkingDirectory error (LookupOutput : ModuleID -> ModuleOutputKind -> M Ctx string)
    Dep ModuleName (HandleFullDeps : FullDependencies -> M Ctx R) s :
  getFullDependencies Worker Compilation WorkingDirectory error
    LookupOutput Dep ModuleName HandleFullDeps s =
  match computeDependencies Worker WorkingDirectory Compilation LookupOutput ModuleName s with
  | (Stop e, s1) => (Stop e, s1)
  | (Ret (EngineError Message), s1) =>
      match error with
      | NullPtr => (Stop NullStore, s1)
      | ErrorPtr => (Ret (false, None), withError s1 Message)
      end
  | (Ret (EngineSuccess Data), s1) =>
      let FDR := (consumerResult Dep Data ∅ Compilation).1 in
      match HandleFullDeps (FullDeps FDR) (withEvents s1 (notifications FDR)) with
      | (Ret FDeps, s2) => (Ret (true, Some FDeps), s2)
      | (Stop e, s2) => (Stop e, s2)
      end
  end.
Proof.
  unfold getFullDependencies. cbv zeta. unfold bind at 1.
  rewrite getFullDependenciesFrom_eq.
  destruct (computeDependencies _ _ _ _ _ s) as [[[Message|Data]|e] s1]; [| |reflexivity].
  - destruct error; reflexivity.
  - cbv zeta. destruct (HandleFullDeps _ _) as [[FDeps|e] s2]; reflexivity.
Qed.

Lemma HandleFullDeps_v3_eq FD s :
  HandleFullDeps_v3 (Ctx := Ctx) FD s =
  if is_empty (DriverCommandLine FD) then (Stop AssertionFailure, s)
  else (Ret (makeFileDependencies FD), s).
Proof.
  unfold HandleFullDeps_v3, bind, assert. by destruct (is_empty _).
Qed.

Lemma HandleFullDeps_v4_eq FD s :
  HandleFullDeps_v4 (Ctx := Ctx) FD s =
  if is_empty (DriverCommandLine FD)
  then (Ret (map (makeTranslationUnitCommand FD) (Commands FD)), s)
  else (Stop AssertionFailure, s).
Proof.
  unfold HandleFullDeps_v4, bind, assert. by destruct (is_empty _).
Qed.

Lemma getFileDependencies_rejected {R : Type} W argc argv Message WorkingDirectory error
    (LookupOutput : ModuleID -> ModuleOutputKind -> M Ctx string) Dep ModuleName
    (HandleFullDeps : FullDependencies -> M Ctx R) s :
  Rejected W argc argv Message ->
  getFileDependencies W argc argv WorkingDirectory error LookupOutput Dep ModuleName
    HandleFullDeps s =
  (Ret (false, None),
   mkState (trace s) (mloContext s)
     (match error with ErrorPtr => Some Message | NullPtr => errorCell s end)
     (PCMPaths s)).
Proof.
  intros Hrej. unfold getFileDependencies.
  destruct Hrej as [argc argv|Worker argc argv Hlt|Worker argc|Worker argc Args Hge Hfmt].
  - destruct error, s; reflexivity.
  - destruct (decide (argc < 2)%Z); [|lia]. destruct error, s; reflexivity.
  - destruct (decide (argc < 2)%Z); destruct error, s; reflexivity.
  - destruct (decide (argc < 2)%Z); [lia|].
    destruct (decide (getFormat Worker <> Full)); [|contradiction].
    destruct error, s; reflexivity.
Qed.

Lemma getFileDependencies_accepted {R : Type} Worker argc Args WorkingDirectory error
    (LookupOutput : ModuleID -> ModuleOutputKind -> M Ctx string) Dep ModuleName
    (HandleFullDeps : FullDependencies -> M Ctx R) s :
  (2 <= argc)%Z -> getFormat Worker = Full -> Z.to_nat argc <= length Args ->
  getFileDependencies (Some Worker) argc (Some Args) WorkingDirectory error
    LookupOutput Dep ModuleName HandleFullDeps s =
  getFullDependencies Worker (take (Z.to_nat argc) Args) WorkingDirectory error
    LookupOutput Dep ModuleName HandleFullDeps
    (mkState (trace s) (mloContext s)
       (match error with ErrorPtr => Some "" | NullPtr => errorCell s end)
       (PCMPaths s)).
Proof.
  intros Hge Hfmt Hlen. unfold getFileDependencies.
  destruct (decide (argc < 2)%Z); [lia|].
  destruct (decide (getFormat Worker <> Full)); [contradiction|].
  unfold makeCompilation. destruct (decide (Z.to_nat argc <= length Args)); [|lia].
  destruct error, s; reflexivity.
Qed.

End Driver.

Section EntryPoints.

Context {Ctx : Type}.
Implicit Types (MLO : CXModuleLookupOutputCallback Ctx) (s : State Ctx).

Lemma Rejected_complete W argc argv :
  W = None \/ (argc < 2)%Z \/ argv = None \/
  (exists Worker, W = Some Worker /\ getFormat Worker <> Full) ->
  exists Message, Rejected W argc argv Message.
Proof.
  intros H. destruct W as [Worker|]; [|eexists; apply Rejected_worker].
  destruct (decide (argc < 2)%Z); [eexists; by apply Rejected_argc|].
  destruct argv as [Args|]; [|eexists; apply Rejected_argv].
  destruct (decide (getFormat Worker = Full)) as [Hfull|Hfmt].
  - exfalso. destruct H as [H|[H|[H|(Worker' & H & Hfmt)]]];
      [discriminate | lia | discriminate | ].
    injection H as <-. contradiction.
  - eexists. apply Rejected_format; [lia | done].
Qed.

Lemma Rejected_nonempty W argc argv Message :
  Rejected W argc argv Message -> Message <> "".
Proof. by destruct 1. Qed.

Lemma v3_rejected W argc argv Message ModuleName WorkingDirectory MLO error s :
  Rejected W argc argv Message ->
  clang_experimental_DependencyScannerWorker_getFileDependencies_v3
    W argc argv ModuleName WorkingDirectory MLO error s
  = (Ret None, rejectedState error Message s).
Proof.
  intros Hrej.
  unfold clang_experimental_DependencyScannerWorker_getFileDependencies_v3.
  unfold bind at 1. unfold newOutputLookup, setPCMPaths. cbv zeta.
  unfold bind at 1. by rewrite (getFileDependencies_rejected _ _ _ _ _ _ _ _ _ _ _ Hrej).
Qed.

Lemma v4_rejected W argc argv Message ModuleName WorkingDirectory MLO error s :
  Rejected W argc argv Message ->
  clang_experimental_DependencyScannerWorker_getFileDependencies_v4
    W argc argv ModuleName WorkingDirectory MLO error s
  = (Ret None, rejectedState error Message s).
Proof.
  intros Hrej.
  unfold clang_experimental_DependencyScannerWorker_getFileDependencies_v4.
  unfold bind at 1. unfold newOutputLookup, setPCMPaths. cbv zeta.
  unfold bind at 1. by rewrite (getFileDependencies_rejected _ _ _ _ _ _ _ _ _ _ _ Hrej).
Qed.

(** The v3 entry point on inputs that pass the validation. *)
Lemma v3_accepted Worker argc Args ModuleName WorkingDirectory MLO error s :
  (2 <= argc)%Z -> getFormat Worker = Full -> Z.to_nat argc <= length Args ->
  clang_experimental_DependencyScannerWorker_getFileDependencies_v3
    (Some Worker) argc (Some Args) ModuleName WorkingDirectory MLO error s =
  let Compilation := take (Z.to_nat argc) Args in
  match computeDependencies Worker WorkingDirectory Compilation
          (OutputLookup_lookupModuleOutput MLO) ModuleName (scanEntryState error s) with
  | (Stop e, s1) => (Stop e, s1)
  | (Ret (EngineError Message), s1) =>
      match error with
      | NullPtr => (Stop NullStore, s1)
      | ErrorPtr => (Ret None, withError s1 Message)
      end
  | (Ret (EngineSuccess Data), s1) =>
      let FDR := mkFDR (discover (ReportedModules Data) ∅).1
                       (LegacyFullDeps Data Compilation) in
      if is_empty (DriverCommandLine (FullDeps FDR))
      then (Stop AssertionFailure, withEvents s1 (notifications FDR))
      else (Ret (Some (makeFileDependencies (FullDeps FDR))),
            withEvents s1 (notifications FDR))
  end.
Proof.
  intros Hge Hfmt Hlen.
  unfold clang_experimental_DependencyScannerWorker_getFileDependencies_v3.
  unfold bind at 1. unfold newOutputLookup, setPCMPaths. cbv zeta.
  unfold bind at 1.
  rewrite getFileDependencies_accepted by done.
  rewrite getFullDependencies_eq. cbn [trace mloContext errorCell PCMPaths].
  fold (scanEntryState error s).
  destruct (computeDependencies _ _ _ _ _ _) as [[[Message|Data]|e] s1]; [| |reflexivity].
  - destruct error; reflexivity.
  - cbv zeta. rewrite consumerResult_eq. cbn [fst].
    rewrite HandleFullDeps_v3_eq. cbn [FullDeps].
    destruct (is_empty _); reflexivity.
Qed.

(** The v4 entry point on inputs that pass the validation. *)
Lemma v4_accepted Worker argc Args ModuleName WorkingDirectory MLO error s :
  (2 <= argc)%Z -> getFormat Worker = Full -> Z.to_nat argc <= length Args ->
  clang_experimental_DependencyScannerWorker_getFileDependencies_v4
    (Some Worker) argc (Some Args) ModuleName WorkingDirectory MLO error s =
  let Compilation := take (Z.to_nat argc) Args in
  match computeDependencies Worker WorkingDirectory Compilation
          (OutputLookup_lookupModuleOutput MLO) ModuleName (scanEntryState error s) with
  | (Stop e, s1) => (Stop e, s1)
  | (Ret (EngineError Message), s1) =>
      match error with
      | NullPtr => (Stop NullStore, s1)
      | ErrorPtr => (Ret None, withError s1 Message)
      end
  | (Ret (EngineSuccess Data), s1) =>
      let FDR := mkFDR (discover (ReportedModules Data) ∅).1 (TakenFullDeps Data) in
      if is_empty (DriverCommandLine (FullDeps FDR))
      then (Ret (Some (map (makeTranslationUnitCommand (FullDeps FDR))
                           (Commands (FullDeps FDR)))),
            withEvents s1 (notifications FDR))
      else (Stop AssertionFailure, withEvents s1 (notifications FDR))
  end.
Proof.
  intros Hge Hfmt Hlen.
  unfold clang_experimental_DependencyScannerWorker_getFileDependencies_v4.
  unfold bind at 1. unfold newOutputLookup, setPCMPaths. cbv zeta.
  unfold bind at 1.
  rewrite getFileDependencies_accepted by done.
  rewrite getFullDependencies_eq. cbn [trace mloContext errorCell PCMPaths].
  fold (scanEntryState error s).
  destruct (computeDependencies _ _ _ _ _ _) as [[[Message|Data]|e] s1]; [| |reflexivity].
  - destruct error; reflexivity.
  - cbv zeta. rewrite consumerResult_eq. cbn [fst].
    rewrite HandleFullDeps_v4_eq. cbn [FullDeps].
    destruct (is_empty _); reflexivity.
Qed.

(** C8.  With a null worker handle, with fewer than two arguments or a null
    argument array, or with a worker whose format is not [Full], both entry
    points return a null result; the trace and the callback context are as
    they were, so neither the engine nor a callback was invoked; when
    [error] is not null it holds a non-empty message, which for a worker
    of another format with well-formed arguments is the unsupported-mode
    message. *)
Theorem validation_failure_before_engine W argc argv ModuleName WorkingDirectory
    MLO error s :
  W = None \/ (argc < 2)%Z \/ argv = None \/
  (exists Worker, W = Some Worker /\ getFormat Worker <> Full) ->
  exists Message,
    Message <> "" /\
    (forall Worker Args, W = Some Worker -> (2 <= argc)%Z -> argv = Some Args ->
       Message = "unsupported CXDependencyMode for this API") /\
    clang_experimental_DependencyScannerWorker_getFileDependencies_v3
      W argc argv ModuleName WorkingDirectory MLO error s
      = (Ret None, rejectedState error Message s) /\
    clang_experimental_DependencyScannerWorker_getFileDependencies_v4
      W argc argv ModuleName WorkingDirectory MLO error s
      = (Ret None, rejectedState error Message s) /\
    trace (rejectedState error Message s) = trace s /\
    mloContext (rejectedState error Message s) = mloContext s /\
    (error = ErrorPtr -> errorCell (rejectedState error Message s) = Some Message).
Proof.
  intros H. destruct (Rejected_complete _ _ _ H) as [Message Hrej].
  exists Message. split; [by eapply Rejected_nonempty|]. split.
  - intros Worker Args -> Hge ->. inversion Hrej; subst; [lia | reflexivity].
  - rewrite (v3_rejected _ _ _ _ _ _ _ _ _ Hrej), (v4_rejected _ _ _ _ _ _ _ _ _ Hrej).
    repeat split. by intros ->.
Qed.

(** C10.  With a null [error], a call that fails the validation returns a
    null result and stores nothing: it does not stop on a null store and
    the error cell is as it was.  When the engine fails, the store is made
    whatever [error] is: a null [error] is stored through, a non-null one
    receives the engine's text and the result is null. *)
Theorem null_error_pointer W argc argv Worker argc' Args ModuleName WorkingDirectory
    MLO s Message :
  (W = None \/ (argc < 2)%Z \/ argv = None \/
   (exists Worker, W = Some Worker /\ getFormat Worker <> Full)) ->
  (2 <= argc')%Z -> getFormat Worker = Full -> Z.to_nat argc' <= length Args ->
  (forall error,
     (computeDependencies Worker WorkingDirectory (take (Z.to_nat argc') Args)
        (OutputLookup_lookupModuleOutput MLO) ModuleName (scanEntryState error s)).1
     = Ret (EngineError Message)) ->
  (exists s',
     clang_experimental_DependencyScannerWorker_getFileDependencies_v3
       W argc argv ModuleName WorkingDirectory MLO NullPtr s = (Ret None, s') /\
     clang_experimental_DependencyScannerWorker_getFileDependencies_v4
       W argc argv ModuleName WorkingDirectory MLO NullPtr s = (Ret None, s') /\
     errorCell s' = errorCell s /\ trace s' = trace s) /\
  ((clang_experimental_DependencyScannerWorker_getFileDependencies_v3
      (Some Worker) argc' (Some Args) ModuleName WorkingDirectory MLO NullPtr s).1
     = Stop NullStore /\
   (clang_experimental_DependencyScannerWorker_getFileDependencies_v4
      (Some Worker) argc' (Some Args) ModuleName WorkingDirectory MLO NullPtr s).1
     = Stop NullStore) /\
  (exists s',
     clang_experimental_DependencyScannerWorker_getFileDependencies_v3
       (Some Worker) argc' (Some Args) ModuleName WorkingDirectory MLO ErrorPtr s
       = (Ret None, s') /\
     clang_experimental_DependencyScannerWorker_getFileDependencies_v4
       (Some Worker) argc' (Some Args) ModuleName WorkingDirectory MLO ErrorPtr s
       = (Ret None, s') /\
     errorCell s' = Some Message).
Proof.
  intros Hbad Hge Hfmt Hlen Hengine. split; [|split].
  - destruct (Rejected_complete _ _ _ Hbad) as [Text Hrej].
    exists (rejectedState NullPtr Text s).
    by rewrite (v3_rejected _ _ _ _ _ _ _ _ _ Hrej), (v4_rejected _ _ _ _ _ _ _ _ _ Hrej).
  - rewrite v3_accepted, v4_accepted by done. cbv zeta.
    specialize (Hengine NullPtr).
    destruct (computeDependencies _ _ _ _ _ _) as [o s1]. cbn [fst] in Hengine.
    by subst o.
  - rewrite v3_accepted, v4_accepted by done. cbv zeta.
    specialize (Hengine ErrorPtr).
    destruct (computeDependencies _ _ _ _ _ _) as [o s1]. cbn [fst] in Hengine.
    subst o. eauto.
Qed.

End EntryPoints.

(** A flat worker with a well-formed command: the unsupported-mode message
    and a null result, nothing invoked. *)
Lemma validation_failure_before_engine_witness :
  clang_experimental_DependencyScannerWorker_getFileDependencies_v3
    (Some flatWorker) 3 (Some sampleCommand) None "/src" callbackShort ErrorPtr
    (initialState 0)
  = (Ret None,
     rejectedState ErrorPtr "unsupported CXDependencyMode for this API" (initialState 0)).
Proof.
  destruct (validation_failure_before_engine (Some flatWorker) 3 (Some sampleCommand)
              None "/src" callbackShort ErrorPtr (initialState 0))
    as (Message & _ & Hmsg & H3 & _).
  - right; right; right. exists flatWorker. split; [reflexivity | discriminate].
  - rewrite (Hmsg flatWorker sampleCommand eq_refl ltac:(lia) eq_refl) in H3. exact H3.
Defined.

(** A null worker with a null [error], and a failing engine with a null
    and with a non-null [error]. *)
Lemma null_error_pointer_witness :
  (exists s',
     clang_experimental_DependencyScannerWorker_getFileDependencies_v3
       None 0 None None "/src" callbackShort NullPtr (initialState 0) = (Ret None, s') /\
     clang_experimental_DependencyScannerWorker_getFileDependencies_v4
       None 0 None None "/src" callbackShort NullPtr (initialState 0) = (Ret None, s') /\
     errorCell s' = errorCell (initialState 0) /\ trace s' = trace (initialState 0)) /\
  ((clang_experimental_DependencyScannerWorker_getFileDependencies_v3
      (Some failingWorker) 3 (Some sampleCommand) None "/src" callbackShort NullPtr
      (initialState 0)).1 = Stop NullStore /\
   (clang_experimental_DependencyScannerWorker_getFileDependencies_v4
      (Some failingWorker) 3 (Some sampleCommand) None "/src" callbackShort NullPtr
      (initialState 0)).1 = Stop NullStore) /\
  (exists s',
     clang_experimental_DependencyScannerWorker_getFileDependencies_v3
       (Some failingWorker) 3 (Some sampleCommand) None "/src" callbackShort ErrorPtr
       (initialState 0) = (Ret None, s') /\
     clang_experimental_DependencyScannerWorker_getFileDependencies_v4
       (Some failingWorker) 3 (Some sampleCommand) None "/src" callbackShort ErrorPtr
       (initialState 0) = (Ret None, s') /\
     errorCell s' = Some "a.cpp: file not found").
Proof.
  apply (null_error_pointer None 0 None failingWorker 3 sampleCommand None "/src"
           callbackShort (initialState 0) "a.cpp: file not found").
  - by left.
  - lia.
  - reflexivity.
  - cbn. lia.
  - intros []; reflexivity.
Defined.

(** ** The error string *)

Section ErrorString.

Context {Ctx : Type}.
Implicit Types (MLO : CXModuleLookupOutputCallback Ctx) (s : State Ctx).

Lemma validation_cases W argc argv :
  (exists Message, Rejected W argc argv Message) \/
  (exists Worker Args,
     W = Some Worker /\ argv = Some Args /\ (2 <= argc)%Z /\ getFormat Worker = Full).
Proof.
  destruct W as [Worker|]; [|left; eexists; apply Rejected_worker].
  destruct (decide (argc < 2)%Z); [left; eexists; by apply Rejected_argc|].
  destruct argv as [Args|]; [|left; eexists; apply Rejected_argv].
  destruct (decide (getFormat Worker = Full)).
  - right. exists Worker, Args. repeat split; [lia | done].
  - left. eexists. apply Rejected_format; [lia | done].
Qed.

Lemma getFileDependencies_overread {R : Type} Worker argc Args WorkingDirectory error
    (LookupOutput : ModuleID -> ModuleOutputKind -> M Ctx string) Dep ModuleName
    (HandleFullDeps : FullDependencies -> M Ctx R) s :
  (2 <= argc)%Z -> getFormat Worker = Full -> length Args < Z.to_nat argc ->
  (getFileDependencies (Some Worker) argc (Some Args) WorkingDirectory error
     LookupOutput Dep ModuleName HandleFullDeps s).1
  = Stop (ArgvOverread argc (length Args)).
Proof.
  intros Hge Hfmt Hlen. unfold getFileDependencies.
  destruct (decide (argc < 2)%Z); [lia|].
  destruct (decide (getFormat Worker <> Full)); [contradiction|].
  unfold makeCompilation. destruct (decide (Z.to_nat argc <= length Args)); [lia|].
  destruct error; reflexivity.
Qed.

Lemma errorContract_rejected {A : Type} W argc argv ModuleName WorkingDirectory Message s :
  Rejected W argc argv Message ->
  errorContract (A := A) W argc argv ModuleName WorkingDirectory None
    (rejectedState ErrorPtr Message s).
Proof.
  intros Hrej. pose proof (Rejected_nonempty _ _ _ _ Hrej) as Hne.
  split; [|split].
  - by intros [? [=]].
  - intros _. exists Message. split; [reflexivity|]. by left.
  - intros _. split; [by intros [? [=]]|]. cbn. by intros [= ->].
Qed.

Lemma errorContract_engine_error {A : Type} Worker argc argv ModuleName WorkingDirectory
    Compilation Paths Message s' :
  Finish (Engine Worker WorkingDirectory Compilation ModuleName) Paths
    = EngineError Message ->
  errorCell s' = Some Message ->
  errorContract (A := A) (Some Worker) argc argv ModuleName WorkingDirectory None s'.
Proof.
  intros Hfin Hcell. split; [|split].
  - by intros [? [=]].
  - intros _. exists Message. split; [done|]. right. by exists Worker, Compilation, Paths.
  - intros Hne. split; [by intros [? [=]]|]. rewrite Hcell. intros [= ->].
    by destruct (Hne Worker eq_refl _ _ _ _ _ Hfin).
Qed.

Lemma errorContract_success {A : Type} W argc argv ModuleName WorkingDirectory (a : A) s' :
  errorCell s' = Some "" ->
  errorContract W argc argv ModuleName WorkingDirectory (Some a) s'.
Proof.
  intros Hcell. split; [done|]. split; [by intros [=]|]. intros _. split; [done|]. by eexists.
Qed.

Lemma engine_phase_errorCell MLO Worker WorkingDirectory Compilation ModuleName s o s1 :
  computeDependencies Worker WorkingDirectory Compilation
    (OutputLookup_lookupModuleOutput MLO) ModuleName s = (o, s1) ->
  errorCell s1 = errorCell s.
Proof.
  intros Heq.
  pose proof (computeDependencies_trace MLO Worker WorkingDirectory Compilation
                ModuleName s) as [He _].
  rewrite Heq in He. exact He.
Qed.

Lemma v3_errorContract W argc argv ModuleName WorkingDirectory MLO s F s' :
  clang_experimental_DependencyScannerWorker_getFileDependencies_v3
    W argc argv ModuleName WorkingDirectory MLO ErrorPtr s = (Ret F, s') ->
  errorContract W argc argv ModuleName WorkingDirectory F s'.
Proof.
  destruct (validation_cases W argc argv)
    as [[Message Hrej]|(Worker & Args & -> & -> & Hge & Hfmt)].
  - rewrite (v3_rejected _ _ _ _ _ _ _ _ _ Hrej). intros [= <- <-].
    by apply errorContract_rejected.
  - destruct (decide (Z.to_nat argc <= length Args)) as [Hlen|Hlen].
    + rewrite v3_accepted by done. cbv zeta.
      destruct (computeDependencies _ _ _ _ _ _) as [[[Message|Data]|e] s1] eqn:Heng;
        [| |discriminate].
      * intros [= <- <-].
        destruct (computeDependencies_outcome _ _ _ _ _ _ _ _ Heng) as [Paths HP].
        by eapply errorContract_engine_error.
      * cbn [FullDeps]. destruct (is_empty _); [discriminate|]. intros [= <- <-].
        apply errorContract_success. cbn [withEvents errorCell].
        by rewrite (engine_phase_errorCell _ _ _ _ _ _ _ _ Heng).
    + unfold clang_experimental_DependencyScannerWorker_getFileDependencies_v3.
      unfold bind at 1. unfold newOutputLookup, setPCMPaths. cbv zeta. unfold bind at 1.
      pose proof (getFileDependencies_overread Worker argc Args WorkingDirectory ErrorPtr
        (OutputLookup_lookupModuleOutput MLO) true ModuleName HandleFullDeps_v3
        (mkState (trace s) (mloContext s) (errorCell s) ∅) Hge Hfmt ltac:(lia)) as Hov.
      destruct (getFileDependencies _ _ _ _ _ _ _ _ _ _) as [o s1]. cbn [fst] in Hov.
      subst o. discriminate.
Qed.

Lemma v4_errorContract W argc argv ModuleName WorkingDirectory MLO s L s' :
  clang_experimental_DependencyScannerWorker_getFileDependencies_v4
    W argc argv ModuleName WorkingDirectory MLO ErrorPtr s = (Ret L, s') ->
  errorContract W argc argv ModuleName WorkingDirectory L s'.
Proof.
  destruct (validation_cases W argc argv)
    as [[Message Hrej]|(Worker & Args & -> & -> & Hge & Hfmt)].
  - rewrite (v4_rejected _ _ _ _ _ _ _ _ _ Hrej). intros [= <- <-].
    by apply errorContract_rejected.
  - destruct (decide (Z.to_nat argc <= length Args)) as [Hlen|Hlen].
    + rewrite v4_accepted by done. cbv zeta.
      destruct (computeDependencies _ _ _ _ _ _) as [[[Message|Data]|e] s1] eqn:Heng;
        [| |discriminate].
      * intros [= <- <-].
        destruct (computeDependencies_outcome _ _ _ _ _ _ _ _ Heng) as [Paths HP].
        by eapply errorContract_engine_error.
      * cbn [FullDeps]. destruct (is_empty _); [|discriminate]. intros [= <- <-].
        apply errorContract_success. cbn [withEvents errorCell].
        by rewrite (engine_phase_errorCell _ _ _ _ _ _ _ _ Heng).
    + unfold clang_experimental_DependencyScannerWorker_getFileDependencies_v4.
      unfold bind at 1. unfold newOutputLookup, setPCMPaths. cbv zeta. unfold bind at 1.
      pose proof (getFileDependencies_overread Worker argc Args WorkingDirectory ErrorPtr
        (OutputLookup_lookupModuleOutput MLO) false ModuleName HandleFullDeps_v4
        (mkState (trace s) (mloContext s) (errorCell s) ∅) Hge Hfmt ltac:(lia)) as Hov.
      destruct (getFileDependencies _ _ _ _ _ _ _ _ _ _) as [o s1]. cbn [fst] in Hov.
      subst o. discriminate.
Qed.

(** C9, as the code has it.  For a call of the v3 or v4 entry point with a
    non-null [error] that returns: a non-null result comes with the empty
    error string; a null result comes with one of the three non-empty
    validation messages or with the text the engine failed with, as the
    engine gave it; and when the engine's error texts are never empty, the
    result is non-null exactly when the error string is empty.  A call that
    fails the validation, and a call whose engine fails, does return, with
    a null result and the error string set. *)
Theorem error_string_contract W argc argv ModuleName WorkingDirectory MLO s :
  (forall F s',
     clang_experimental_DependencyScannerWorker_getFileDependencies_v3
       W argc argv ModuleName WorkingDirectory MLO ErrorPtr s = (Ret F, s') ->
     errorContract W argc argv ModuleName WorkingDirectory F s') /\
  (forall L s',
     clang_experimental_DependencyScannerWorker_getFileDependencies_v4
       W argc argv ModuleName WorkingDirectory MLO ErrorPtr s = (Ret L, s') ->
     errorContract W argc argv ModuleName WorkingDirectory L s') /\
  (forall Message, Rejected W argc argv Message ->
     Message <> "" /\
     exists s',
       clang_experimental_DependencyScannerWorker_getFileDependencies_v3
         W argc argv ModuleName WorkingDirectory MLO ErrorPtr s = (Ret None, s') /\
       clang_experimental_DependencyScannerWorker_getFileDependencies_v4
         W argc argv ModuleName WorkingDirectory MLO ErrorPtr s = (Ret None, s') /\
       errorCell s' = Some Message) /\
  (forall Worker Args Message,
     W = Some Worker -> argv = Some Args ->
     (2 <= argc)%Z -> getFormat Worker = Full -> Z.to_nat argc <= length Args ->
     (computeDependencies Worker WorkingDirectory (take (Z.to_nat argc) Args)
        (OutputLookup_lookupModuleOutput MLO) ModuleName (scanEntryState ErrorPtr s)).1
       = Ret (EngineError Message) ->
     exists s',
       clang_experimental_DependencyScannerWorker_getFileDependencies_v3
         W argc argv ModuleName WorkingDirectory MLO ErrorPtr s = (Ret None, s') /\
       clang_experimental_DependencyScannerWorker_getFileDependencies_v4
         W argc argv ModuleName WorkingDirectory MLO ErrorPtr s = (Ret None, s') /\
       errorCell s' = Some Message).
Proof.
  split; [|split; [|split]].
  - intros F s'. apply v3_errorContract.
  - intros L s'. apply v4_errorContract.
  - intros Message Hrej. split; [by eapply Rejected_nonempty|].
    exists (rejectedState ErrorPtr Message s).
    by rewrite (v3_rejected _ _ _ _ _ _ _ _ _ Hrej), (v4_rejected _ _ _ _ _ _ _ _ _ Hrej).
  - intros Worker Args Message -> -> Hge Hfmt Hlen Heng.
    rewrite v3_accepted, v4_accepted by done. cbv zeta.
    destruct (computeDependencies _ _ _ _ _ _) as [o s1]. cbn [fst] in Heng. subst o.
    eauto.
Qed.

End ErrorString.

(** An engine that fails without a text: the result is null and the error
    string is empty. *)
Lemma silent_engine_failure :
  clang_experimental_DependencyScannerWorker_getFileDependencies_v3
    (Some silentWorker) 3 (Some sampleCommand) None "/src" callbackShort ErrorPtr
    (initialState 0)
  = (Ret None,
     mkState [EvComputeDependencies "/src" sampleCommand None] 0 (Some "") ∅).
Proof.
  rewrite v3_accepted; [reflexivity | lia | reflexivity | cbn; lia].
Qed.

(** C9 as stated (non-null result if and only if the error string is
    empty) fails for an engine that fails with an empty text. *)
Lemma error_string_empty_on_failure :
  ~ (forall W argc argv ModuleName WorkingDirectory
       (MLO : CXModuleLookupOutputCallback nat) s F s',
       clang_experimental_DependencyScannerWorker_getFileDependencies_v3
         W argc argv ModuleName WorkingDirectory MLO ErrorPtr s = (Ret F, s') ->
       (is_Some F <-> errorCell s' = Some "")).
Proof.
  intros H. specialize (H _ _ _ _ _ _ _ _ _ silent_engine_failure).
  destruct H as [_ H]. by destruct (H eq_refl) as [? [=]].
Qed.

(** ** The two result shapes *)

Section ResultShapes.

Context {Ctx : Type}.
Implicit Types (MLO : CXModuleLookupOutputCallback Ctx) (s : State Ctx).

Lemma is_empty_true {A : Type} (l : list A) : is_empty l = true <-> l = [].
Proof. by destruct l. Qed.

Lemma is_empty_false {A : Type} (l : list A) : is_empty l = false <-> l <> [].
Proof. by destruct l. Qed.

(** No translation-unit record is accepted by both handlers. *)
Lemma handlers_exclusive (FD : FullDependencies) s F s3 L s4 :
  HandleFullDeps_v3 FD s = (Ret F, s3) ->
  HandleFullDeps_v4 FD s = (Ret L, s4) -> False.
Proof.
  rewrite HandleFullDeps_v3_eq, HandleFullDeps_v4_eq.
  by destruct (is_empty (DriverCommandLine FD)).
Qed.

(** C7.  After a scan whose engine succeeded, the v3 entry point returns a
    record exactly when the legacy driver command line of the scan is not
    empty, and the record's build arguments are that command line; the v4
    entry point returns a result exactly when the driver command line of
    its translation-unit record is empty, and the result has one record per
    command of the engine, in order, with that command's executable and
    arguments.  In the other case the assertion of the handler fails.  No
    translation-unit record passes both handlers. *)
Theorem result_modes_exclusive Worker argc Args ModuleName WorkingDirectory MLO error s
    Data :
  (2 <= argc)%Z -> getFormat Worker = Full -> Z.to_nat argc <= length Args ->
  (computeDependencies Worker WorkingDirectory (take (Z.to_nat argc) Args)
     (OutputLookup_lookupModuleOutput MLO) ModuleName (scanEntryState error s)).1
    = Ret (EngineSuccess Data) ->
  let Legacy := LegacyFullDeps Data (take (Z.to_nat argc) Args) in
  let Taken := TakenFullDeps Data in
  let r3 := clang_experimental_DependencyScannerWorker_getFileDependencies_v3
              (Some Worker) argc (Some Args) ModuleName WorkingDirectory MLO error s in
  let r4 := clang_experimental_DependencyScannerWorker_getFileDependencies_v4
              (Some Worker) argc (Some Args) ModuleName WorkingDirectory MLO error s in
  (DriverCommandLine Legacy <> [] ->
     exists F, r3.1 = Ret (Some F) /\
               F_BuildArguments F = DriverCommandLine Legacy /\
               F_ContextHash F = ContextHash (FD_ID Legacy) /\
               F_FileDeps F = FD_FileDeps Legacy) /\
  (DriverCommandLine Legacy = [] -> r3.1 = Stop AssertionFailure) /\
  (DriverCommandLine Taken = [] ->
     exists L, r4.1 = Ret (Some L) /\
               length L = length (Commands Taken) /\
               map Executable L = map getExecutable (Commands Taken) /\
               map C_BuildArguments L = map getArguments (Commands Taken)) /\
  (DriverCommandLine Taken <> [] -> r4.1 = Stop AssertionFailure) /\
  (forall FD sa F sb L sc,
     ~ (HandleFullDeps_v3 (Ctx := Ctx) FD sa = (Ret F, sb) /\
        HandleFullDeps_v4 (Ctx := Ctx) FD sa = (Ret L, sc))).
Proof.
  intros Hge Hfmt Hlen Heng Legacy Taken r3 r4. subst r3 r4.
  rewrite v3_accepted, v4_accepted by done. cbv zeta.
  destruct (computeDependencies _ _ _ _ _ _) as [o s1]. cbn [fst] in Heng. subst o.
  cbn [FullDeps]. fold Legacy Taken.
  split; [|split; [|split; [|split]]].
  - intros Hne. apply is_empty_false in Hne. rewrite Hne. cbn [fst]. eauto.
  - intros He. apply is_empty_true in He. by rewrite He.
  - intros He. apply is_empty_true in He. rewrite He. cbn [fst].
    eexists. split; [reflexivity|].
    rewrite length_map, <- !list_fmap_compose. done.
  - intros Hne. apply is_empty_false in Hne. by rewrite Hne.
  - intros FD sa F sb L sc [H3 H4]. eapply handlers_exclusive; eauto.
Qed.

End ResultShapes.

(** The two shapes of the sample scan of [clang -c a.cpp]: the legacy
    command line in the v3 record, the engine's one command in the v4
    result. *)
Lemma result_modes_exclusive_witness :
  (exists F,
     (clang_experimental_DependencyScannerWorker_getFileDependencies_v3
        (Some sampleWorker) 3 (Some sampleCommand) None "/src" callbackShort ErrorPtr
        (initialState 0)).1 = Ret (Some F) /\
     F_BuildArguments F = ["-c"; "a.cpp"; "-fmodule-file=M.pcm"]) /\
  (exists L,
     (clang_experimental_DependencyScannerWorker_getFileDependencies_v4
        (Some sampleWorker) 3 (Some sampleCommand) None "/src" callbackShort ErrorPtr
        (initialState 0)).1 = Ret (Some L) /\
     map Executable L = ["clang"] /\
     map C_BuildArguments L = [["-cc1"; "-c"; "a.cpp"]]).
Proof.
  pose proof (result_modes_exclusive sampleWorker 3 sampleCommand None "/src"
    callbackShort ErrorPtr (initialState 0)
    sampleData
    ltac:(lia) eq_refl ltac:(cbn; lia) ltac:(vm_compute; reflexivity)) as H.
  cbv zeta in H. destruct H as (H3 & _ & H4 & _).
  destruct (H3 ltac:(discriminate)) as (F & HF & Hargs & _).
  destruct (H4 eq_refl) as (L & HL & _ & Hexe & Hcmd).
  split; [exists F | exists L]; auto.
Defined.

(** ** Discovery notifications *)

Lemma discover_sublist (Reported : list ModuleDeps) (AlreadySeen : gset ModuleID) :
  sublist (discover Reported AlreadySeen).1 Reported.
Proof.
  revert AlreadySeen. induction Reported as [|MD Rest IH]; intros AlreadySeen.
  - constructor.
  - cbn [discover markSeen]. specialize (IH ({[MD_ID MD]} ∪ AlreadySeen)).
    destruct (discover Rest _) as [New Seen']. cbn [fst] in *.
    destruct (bool_decide _); by constructor.
Qed.

(** What [discover] keeps: identities that were not in the registry, each
    once; and the registry it leaves holds the old registry and every
    identity it kept. *)
Lemma discover_fresh (Reported : list ModuleDeps) (AlreadySeen : gset ModuleID) :
  let r := discover Reported AlreadySeen in
  NoDup (map MD_ID r.1) /\
  (forall ID, ID ∈ map MD_ID r.1 -> ID ∉ AlreadySeen) /\
  AlreadySeen ⊆ r.2 /\
  (forall ID, ID ∈ map MD_ID r.1 -> ID ∈ r.2).
Proof.
  revert AlreadySeen. induction Reported as [|MD Rest IH]; intros AlreadySeen; cbv zeta.
  - cbn. split; [constructor|]. split; [by intros ? ?%elem_of_nil|].
    split; [done|]. by intros ? ?%elem_of_nil.
  - cbn [discover markSeen]. specialize (IH ({[MD_ID MD]} ∪ AlreadySeen)). cbv zeta in IH.
    destruct (discover Rest _) as [New Seen']. cbn [fst snd] in *.
    destruct IH as (Hnd & Hfresh & Hsub & Hin).
    destruct (bool_decide (MD_ID MD ∉ AlreadySeen)) eqn:Hb.
    + apply bool_decide_eq_true in Hb. cbn [map]. split; [|split; [|split]].
      * constructor; [|done]. intros Hmem. apply Hfresh in Hmem. set_solver.
      * intros ID [->|Hmem]%elem_of_cons; [done|]. apply Hfresh in Hmem. set_solver.
      * set_solver.
      * intros ID [->|Hmem]%elem_of_cons; [set_solver | by apply Hin].
    + split; [done|]. split; [|split; [set_solver | done]].
      intros ID Hmem. apply Hfresh in Hmem. set_solver.
Qed.

Lemma makeModuleDependency_ID (New : list ModuleDeps) :
  map (fun M => mkModuleID (Name M) (M_ContextHash M)) (map makeModuleDependency New)
  = map MD_ID New.
Proof.
  induction New as [|[[n h] ? ? ? ?] New IH]; [reflexivity|].
  cbn [map]. by rewrite IH.
Qed.

Lemma mdcCalls_notifications (FDR : FullDependenciesResult) :
  mdcCalls (notifications FDR) =
  if is_empty (DiscoveredModules FDR) then []
  else [map makeModuleDependency (DiscoveredModules FDR)].
Proof. unfold notifications. by destruct (is_empty _). Qed.

Lemma reportedIDs_notifications (FDR : FullDependenciesResult) :
  reportedIDs (notifications FDR) = map MD_ID (DiscoveredModules FDR).
Proof.
  unfold reportedIDs. rewrite mdcCalls_notifications, <- makeModuleDependency_ID.
  destruct (DiscoveredModules FDR) as [|MD New]; [reflexivity|].
  cbn. by rewrite app_nil_r.
Qed.

Section Notifications.

Context {Ctx : Type}.
Implicit Types (MLO : CXModuleLookupOutputCallback Ctx) (s : State Ctx).

(** C2.  In a scan whose engine succeeded, the handler that produces the
    translation-unit result runs in a state whose trace already holds the
    whole notification.  When no module was newly discovered, the discovery
    callback is not invoked at all; otherwise it is invoked once, after the
    engine and before the handler, with the newly discovered modules in the
    order in which the engine reported them. *)
Theorem discovery_before_result {R : Type} Worker Compilation WorkingDirectory error MLO
    (Dep : bool) ModuleName (HandleFullDeps : FullDependencies -> M Ctx R) s Data s1 :
  computeDependencies Worker WorkingDirectory Compilation
    (OutputLookup_lookupModuleOutput MLO) ModuleName s = (Ret (EngineSuccess Data), s1) ->
  let New := (discover (ReportedModules Data) ∅).1 in
  let FD := if Dep then LegacyFullDeps Data Compilation else TakenFullDeps Data in
  let MDS := map makeModuleDependency New in
  let Called := EvComputeDependencies WorkingDirectory Compilation ModuleName in
  let s2 := withEvents s1 (notifications (mkFDR New FD)) in
  getFullDependencies Worker Compilation WorkingDirectory error
    (OutputLookup_lookupModuleOutput MLO) Dep ModuleName HandleFullDeps s
  = (match HandleFullDeps FD s2 with
     | (Ret FDeps, s3) => (Ret (true, Some FDeps), s3)
     | (Stop e, s3) => (Stop e, s3)
     end) /\
  (New = [] ->
     mdcCalls (trace s2) = mdcCalls (trace s) /\
     nonMLO (trace s2) = nonMLO (trace s) ++ [Called; EvHandleFullDeps FD]) /\
  (New <> [] ->
     mdcCalls (trace s2) = mdcCalls (trace s) ++ [MDS] /\
     nonMLO (trace s2) = nonMLO (trace s) ++ [Called; EvMDC MDS; EvHandleFullDeps FD]) /\
  map (fun M => mkModuleID (Name M) (M_ContextHash M)) MDS = map MD_ID New /\
  sublist New (ReportedModules Data).
Proof.
  intros Heng New FD MDS Called s2.
  pose proof (computeDependencies_trace MLO Worker WorkingDirectory Compilation
                ModuleName s) as Htr.
  rewrite Heng in Htr. cbn [snd] in Htr.
  pose proof (lookupsOnly_mdcCalls _ _ _ Htr) as Hmdc.
  pose proof (lookupsOnly_nonMLO _ _ _ Htr) as Hnon.
  cbn in Hmdc, Hnon. rewrite app_nil_r in Hmdc.
  split; [|split; [|split; [|split]]].
  - rewrite getFullDependencies_eq, Heng. cbv zeta. rewrite consumerResult_eq.
    cbn [fst]. reflexivity.
  - intros Hnil. subst s2. cbn [withEvents trace].
    rewrite mdcCalls_app, nonMLO_app, Hmdc, Hnon, mdcCalls_notifications.
    unfold notifications. cbn [DiscoveredModules FullDeps]. rewrite Hnil.
    cbn. by rewrite app_nil_r, <- app_assoc.
  - intros Hne. subst s2. cbn [withEvents trace].
    rewrite mdcCalls_app, nonMLO_app, Hmdc, Hnon, mdcCalls_notifications.
    unfold notifications. cbn [DiscoveredModules FullDeps].
    apply is_empty_false in Hne. rewrite Hne.
    cbn. by rewrite <- app_assoc.
  - apply makeModuleDependency_ID.
  - apply discover_sublist.
Qed.

End Notifications.

Lemma sampleEngine_run :
  computeDependencies sampleWorker "/src" sampleCommand
    (OutputLookup_lookupModuleOutput callbackShort) None (initialState 0)
  = (Ret (EngineSuccess sampleData), sampleEngineState).
Proof. vm_compute. reflexivity. Qed.

(** The sample scan in legacy mode: the engine is called, the discovery
    callback receives the one discovered module, and only then the handler
    runs and the scan returns its record. *)
Lemma discovery_before_result_witness :
  let r := getFullDependencies sampleWorker sampleCommand "/src" ErrorPtr
             (OutputLookup_lookupModuleOutput callbackShort) true None
             HandleFullDeps_v3 (initialState 0) in
  r.1 = Ret (true, Some (makeFileDependencies (sampleLegacy sampleCommand))) /\
  nonMLO (trace r.2) =
    [EvComputeDependencies "/src" sampleCommand None;
     EvMDC sampleModuleSet;
     EvHandleFullDeps (sampleLegacy sampleCommand)].
Proof.
  pose proof (discovery_before_result sampleWorker sampleCommand "/src" ErrorPtr
                callbackShort true None HandleFullDeps_v3 (initialState 0)
                sampleData sampleEngineState sampleEngine_run) as H.
  cbv zeta in H. destruct H as (Heq & _ & Hne & _).
  cbv zeta. rewrite Heq, HandleFullDeps_v3_eq.
  destruct (Hne ltac:(vm_compute; discriminate)) as [_ Hn].
  split; [reflexivity | exact Hn].
Defined.

(** ** At most one report per identity and registry *)

Section Registry.

Context {Ctx R : Type}.
Implicit Types (MLO : CXModuleLookupOutputCallback Ctx) (s : State Ctx).

Lemma engine_phase_reportedIDs MLO Worker WorkingDirectory Compilation ModuleName s o s1 :
  computeDependencies Worker WorkingDirectory Compilation
    (OutputLookup_lookupModuleOutput MLO) ModuleName s = (o, s1) ->
  reportedIDs (trace s1) = reportedIDs (trace s).
Proof.
  intros Heng.
  pose proof (computeDependencies_trace MLO Worker WorkingDirectory Compilation
                ModuleName s) as Htr.
  rewrite Heng in Htr. cbn [snd] in Htr.
  pose proof (lookupsOnly_mdcCalls _ _ _ Htr) as Hmdc. cbn in Hmdc.
  rewrite app_nil_r in Hmdc. unfold reportedIDs. by rewrite Hmdc.
Qed.

(** One scan from a registry: what it reports is new to the registry and
    free of repetitions, and the registry it leaves holds all of it. *)
Lemma getFullDependenciesFrom_reports AlreadySeen Worker Compilation WorkingDirectory
    error MLO Dep ModuleName (HandleFullDeps : FullDependencies -> M Ctx R) s :
  (forall FD s0, mdcCalls (trace (HandleFullDeps FD s0).2) = mdcCalls (trace s0)) ->
  let r := getFullDependenciesFrom AlreadySeen Worker Compilation WorkingDirectory error
             (OutputLookup_lookupModuleOutput MLO) Dep ModuleName HandleFullDeps s in
  exists New,
    reportedIDs (trace r.2) = reportedIDs (trace s) ++ New /\
    NoDup New /\
    (forall ID, ID ∈ New -> ID ∉ AlreadySeen) /\
    (forall Result Seen, r.1 = Ret (Result, Seen) ->
       AlreadySeen ⊆ Seen /\ forall ID, ID ∈ New -> ID ∈ Seen).
Proof.
  intros Hquiet r. subst r. rewrite getFullDependenciesFrom_eq.
  destruct (computeDependencies _ _ _ _ _ s) as [[[Message|Data]|e] s1] eqn:Heng.
  - exists []. rewrite app_nil_r.
    pose proof (engine_phase_reportedIDs _ _ _ _ _ _ _ _ Heng) as Hrep.
    destruct error; cbn [fst snd withError trace];
      (split; [exact Hrep|]); (split; [constructor|]);
      (split; [by intros ? ?%elem_of_nil|]).
    + discriminate.
    + intros Result Seen [= _ <-]. split; [done|]. by intros ? ?%elem_of_nil.
  - cbv zeta. rewrite consumerResult_eq. cbn [fst snd FullDeps].
    pose proof (discover_fresh (ReportedModules Data) AlreadySeen) as Hd.
    cbv zeta in Hd. destruct Hd as (Hnd & Hfresh & Hsub & Hin).
    exists (map MD_ID (discover (ReportedModules Data) AlreadySeen).1).
    set (FDR := mkFDR _ _).
    pose proof (Hquiet (FullDeps FDR) (withEvents s1 (notifications FDR))) as Hq.
    assert (Hrep : reportedIDs (trace (HandleFullDeps (FullDeps FDR)
                      (withEvents s1 (notifications FDR))).2)
                   = reportedIDs (trace s)
                     ++ map MD_ID (discover (ReportedModules Data) AlreadySeen).1).
    { unfold reportedIDs at 1. rewrite Hq. fold (reportedIDs (trace (withEvents s1
        (notifications FDR)))). cbn [withEvents trace].
      rewrite reportedIDs_app, reportedIDs_notifications.
      by rewrite (engine_phase_reportedIDs _ _ _ _ _ _ _ _ Heng). }
    cbn [FullDeps] in *.
    destruct (HandleFullDeps _ _) as [[FDeps|e] s2]; cbn [fst snd] in *.
    + split; [exact Hrep|]. split; [exact Hnd|]. split; [exact Hfresh|].
      intros Result Seen [= _ <-]. by split.
    + split; [exact Hrep|]. split; [exact Hnd|]. split; [exact Hfresh|]. discriminate.
  - exists []. rewrite app_nil_r. cbn [fst snd].
    split; [by rewrite (engine_phase_reportedIDs _ _ _ _ _ _ _ _ Heng)|].
    split; [constructor|]. split; [by intros ? ?%elem_of_nil|]. discriminate.
Qed.

(** C1.  For every sequence of scans run through one registry, with a
    result handler that does not itself invoke the discovery callback, the
    identities reported through the discovery callback during the sequence
    are pairwise different and none of them was in the registry at the
    start, however often the engine reports an identity again. *)
Theorem discovery_at_most_once AlreadySeen Scans error MLO
    (HandleFullDeps : FullDependencies -> M Ctx R) s :
  (forall FD s0, mdcCalls (trace (HandleFullDeps FD s0).2) = mdcCalls (trace s0)) ->
  exists New,
    reportedIDs (trace (scanSequence AlreadySeen Scans error
                          (OutputLookup_lookupModuleOutput MLO) HandleFullDeps s).2)
      = reportedIDs (trace s) ++ New /\
    NoDup New /\
    (forall ID, ID ∈ New -> ID ∉ AlreadySeen).
Proof.
  intros Hquiet. revert AlreadySeen s.
  induction Scans as [|Q Rest IH]; intros AlreadySeen s.
  - exists []. rewrite app_nil_r. split; [reflexivity|].
    split; [constructor | by intros ? ?%elem_of_nil].
  - cbn [scanSequence]. unfold bind at 1.
    pose proof (getFullDependenciesFrom_reports AlreadySeen (SR_Worker Q)
                  (SR_Compilation Q) (SR_WorkingDirectory Q) error MLO
                  (SR_DeprecatedDriverCommand Q) (SR_ModuleName Q) HandleFullDeps s
                  Hquiet) as H1.
    cbv zeta in H1. destruct H1 as (New1 & Hrep1 & Hnd1 & Hfresh1 & Hseen).
    destruct (getFullDependenciesFrom _ _ _ _ _ _ _ _ _ s) as [[[Result Seen]|e] s1];
      cbn [fst snd] in *.
    + destruct (Hseen Result Seen eq_refl) as [Hsub Hin].
      destruct (IH Seen s1) as (New2 & Hrep2 & Hnd2 & Hfresh2).
      exists (New1 ++ New2). rewrite Hrep2, Hrep1, app_assoc.
      split; [reflexivity|]. split.
      * apply NoDup_app. split; [done|]. split; [|done].
        intros ID H1 H2. apply Hfresh2 in H2. by apply H2, Hin.
      * intros ID [H1|H2]%elem_of_app; [by apply Hfresh1|].
        apply Hfresh2 in H2. clear -H2 Hsub. set_solver.
    + exists New1. split; [exact Hrep1|]. by split.
Qed.

End Registry.

Lemma HandleFullDeps_v3_quiet {Ctx : Type} (FD : FullDependencies) (s : State Ctx) :
  mdcCalls (trace (HandleFullDeps_v3 FD s).2) = mdcCalls (trace s).
Proof. rewrite HandleFullDeps_v3_eq. by destruct (is_empty _). Qed.

Lemma HandleFullDeps_v4_quiet {Ctx : Type} (FD : FullDependencies) (s : State Ctx) :
  mdcCalls (trace (HandleFullDeps_v4 FD s).2) = mdcCalls (trace s).
Proof. rewrite HandleFullDeps_v4_eq. by destruct (is_empty _). Qed.

(** Two scans through one registry, each reporting [ID_M], [ID_hex] and
    [ID_M] again: the discovery callback sees [ID_M] and [ID_hex] once. *)
Lemma scanSequence_repeated_run :
  reportedIDs (trace (scanSequence ∅ [repeatedScan; repeatedScan] ErrorPtr
                        (OutputLookup_lookupModuleOutput callbackShort)
                        HandleFullDeps_v3 (initialState 0)).2)
  = [ID_M; ID_hex].
Proof. vm_compute. reflexivity. Qed.

Lemma discovery_at_most_once_witness :
  exists New,
    reportedIDs (trace (scanSequence ∅ [repeatedScan; repeatedScan] ErrorPtr
                          (OutputLookup_lookupModuleOutput callbackShort)
                          HandleFullDeps_v3 (initialState 0)).2)
      = reportedIDs (trace (initialState 0)) ++ New /\
    NoDup New /\
    (forall ID, ID ∈ New -> ID ∉ (∅ : gset ModuleID)).
Proof.
  apply (discovery_at_most_once ∅ [repeatedScan; repeatedScan] ErrorPtr callbackShort
           HandleFullDeps_v3 (initialState 0)).
  intros FD s0. apply HandleFullDeps_v3_quiet.
Defined.

(** One call of [getFullDependencies] is one scan through a registry of
    its own. *)
Lemma getFullDependencies_reports_once {Ctx R : Type} Worker Compilation WorkingDirectory
    error (MLO : CXModuleLookupOutputCallback Ctx) Dep ModuleName
    (HandleFullDeps : FullDependencies -> M Ctx R) (s : State Ctx) :
  (forall FD s0, mdcCalls (trace (HandleFullDeps FD s0).2) = mdcCalls (trace s0)) ->
  exists New,
    reportedIDs (trace (getFullDependencies Worker Compilation WorkingDirectory error
                          (OutputLookup_lookupModuleOutput MLO) Dep ModuleName
                          HandleFullDeps s).2)
      = reportedIDs (trace s) ++ New /\
    NoDup New.
Proof.
  intros Hquiet.
  destruct (getFullDependenciesFrom_reports ∅ Worker Compilation WorkingDirectory error
              MLO Dep ModuleName HandleFullDeps s Hquiet) as (New & Hrep & Hnd & _).
  exists New. split; [|exact Hnd].
  unfold getFullDependencies. cbv zeta. unfold bind.
  destruct (getFullDependenciesFrom _ _ _ _ _ _ _ _ _ s) as [[[Result Seen]|e] s1];
    exact Hrep.
Qed.

(** The registry does not outlive the call: two calls of the v3 entry point
    with the same engine report the same identities twice. *)
Lemma separate_calls_report_again :
  let call := clang_experimental_DependencyScannerWorker_getFileDependencies_v3
                (Some repeatingWorker) 3 (Some sampleCommand) None "/src"
                callbackShort ErrorPtr in
  reportedIDs (trace (call (initialState 0)).2) = [ID_M; ID_hex] /\
  reportedIDs (trace (call (call (initialState 0)).2).2)
    = [ID_M; ID_hex; ID_M; ID_hex].
Proof. vm_compute. split; reflexivity. Qed.

(** The end-to-end run of [clang -c a.cpp] with an engine that reports the
    file dependency [a.h] and no module: the discovery callback is not
    invoked. *)
Lemma plain_scan_run :
  let r := clang_experimental_DependencyScannerWorker_getFileDependencies_v3
             (Some plainWorker) 3 (Some sampleCommand) None "/src"
             callbackShort ErrorPtr (initialState 0) in
  r.1 = Ret (Some (mkCXFileDependencies "H0" ["a.h"] [] ["-c"; "a.cpp"])) /\
  mdcCalls (trace r.2) = [] /\
  errorCell r.2 = Some "".
Proof. vm_compute. repeat split; reflexivity. Qed.

(** * Further properties of the code *)

(** ** What the lookup returns *)

Lemma take_overwritten_fresh (Out : list ascii) (Len : nat) :
  Len <= 256 ->
  take Len (overwrite (replicate 256 Ascii.zero) Out)
  = take Len (Out ++ replicate 256 Ascii.zero).
Proof.
  intros HLen. unfold overwrite. rewrite length_replicate, drop_replicate.
  destruct (decide (length Out <= 256)) as [Hle|Hgt].
  - rewrite (take_ge Out 256) by lia.
    rewrite !take_app, !take_replicate. do 2 f_equal. lia.
  - replace (256 - length Out) with 0 by lia. cbn [replicate]. rewrite app_nil_r.
    rewrite take_take, take_app.
    replace (Len - length Out) with 0 by lia.
    rewrite take_0, app_nil_r. f_equal. lia.
Qed.

Section LookupContent.

Context {Ctx : Type}.
Implicit Types (MLO : CXModuleLookupOutputCallback Ctx) (s : State Ctx).

(** When the first report fits the 256-byte buffer, the lookup returns the
    first [Len1] bytes of what the callback wrote followed by NUL bytes:
    a callback that writes fewer bytes than it reports gets its output
    padded with NULs, one that writes more gets it cut, and one that writes
    exactly what it reports gets exactly that back.  The callback's context
    is the one it left. *)
Theorem lookupModuleOutput_content MLO ID MOK s Out1 Len1 c1 :
  MLO (mloContext s) (ModuleName ID) (ContextHash ID) (wrap MOK) 256
    = (Out1, Len1, c1) ->
  Len1 <= 256 ->
  let r := lookupModuleOutput ID MOK MLO s in
  r.1 = Ret (string_of_list_ascii (take Len1 (Out1 ++ replicate 256 Ascii.zero))) /\
  (length Out1 = Len1 -> r.1 = Ret (string_of_list_ascii Out1)) /\
  (length Out1 <= Len1 ->
     r.1 = Ret (string_of_list_ascii
                  (Out1 ++ replicate (Len1 - length Out1) Ascii.zero))) /\
  mloContext r.2 = c1.
Proof.
  intros H1 HLen r. subst r. rewrite lookupModuleOutput_eq. cbv zeta. rewrite H1.
  destruct (decide (256 < Len1)); [lia|]. cbn [fst snd mloContext].
  rewrite take_overwritten_fresh by done.
  split; [reflexivity|]. split; [|split; [|reflexivity]].
  - intros <-. by rewrite take_app_length.
  - intros Hshort. rewrite take_app, take_replicate, (take_ge Out1) by done.
    by replace ((Len1 - length Out1) `min` 256) with (Len1 - length Out1) by lia.
Qed.

(** After a retry whose report fits and whose output has the reported
    length, the lookup returns exactly what the second invocation wrote:
    nothing of the first attempt is left in the result.  The second
    invocation runs in the context the first one left. *)
Theorem lookupModuleOutput_retry_content MLO ID MOK s Out1 Len1 c1 Out2 Len2 c2 :
  MLO (mloContext s) (ModuleName ID) (ContextHash ID) (wrap MOK) 256
    = (Out1, Len1, c1) ->
  MLO c1 (ModuleName ID) (ContextHash ID) (wrap MOK) Len1 = (Out2, Len2, c2) ->
  256 < Len1 -> Len2 <= Len1 -> length Out2 = Len2 ->
  let r := lookupModuleOutput ID MOK MLO s in
  r.1 = Ret (string_of_list_ascii Out2) /\ mloContext r.2 = c2.
Proof.
  intros H1 H2 Hgt Hfit Hlen r. subst r. rewrite lookupModuleOutput_eq. cbv zeta.
  rewrite H1. destruct (decide (256 < Len1)); [|lia]. rewrite H2.
  destruct (decide (Len2 <= Len1)); [|lia]. cbn [fst snd mloContext].
  split; [|reflexivity]. do 2 f_equal.
  unfold overwrite. rewrite length_resize.
  rewrite (take_ge Out2 Len1) by lia. subst Len2. by rewrite take_app_length.
Qed.

End LookupContent.

Lemma lookupModuleOutput_content_witness :
  (lookupModuleOutput ID_M ModuleFile callbackShort (initialState 0)).1 = Ret "M.pcm".
Proof.
  destruct (lookupModuleOutput_content callbackShort ID_M ModuleFile (initialState 0)
              _ _ _ eq_refl ltac:(lia)) as (_ & H & _).
  exact (H eq_refl).
Defined.

Lemma lookupModuleOutput_retry_content_witness :
  (lookupModuleOutput ID_M ModuleFile callback300 (initialState 0)).1
  = Ret (string_of_list_ascii (replicate 300 "a"%char)).
Proof.
  destruct (lookupModuleOutput_retry_content callback300 ID_M ModuleFile (initialState 0)
              _ _ _ _ _ _ eq_refl eq_refl ltac:(lia) ltac:(lia) eq_refl) as [H _].
  exact H.
Defined.

(** ** The cache as a map *)

Section CacheMap.

Context {Ctx : Type}.
Implicit Types (MLO : CXModuleLookupOutputCallback Ctx) (s : State Ctx).

Lemma lookupModuleOutput_frame MLO ID MOK s P :
  lookupModuleOutput ID MOK MLO (withPCMPaths s P) =
  ((lookupModuleOutput ID MOK MLO s).1,
   withPCMPaths (lookupModuleOutput ID MOK MLO s).2 P).
Proof.
  rewrite !lookupModuleOutput_eq. cbv zeta. cbn [withPCMPaths mloContext trace errorCell].
  destruct (MLO (mloContext s) _ _ _ 256) as [[Out1 Len1] c1].
  destruct (decide (256 < Len1)); [|reflexivity].
  by destruct (MLO c1 _ _ _ Len1) as [[Out2 Len2] c2].
Qed.

Lemma OutputLookup_keeps_entry MLO ID MOK s ID' Path' :
  PCMPaths s !! ID' = Some Path' ->
  PCMPaths (OutputLookup_lookupModuleOutput MLO ID MOK s).2 !! ID' = Some Path'.
Proof.
  intros Hc. destruct (decide (MOK = ModuleFile)) as [->|Hk].
  - destruct (PCMPaths s !! ID) as [Path|] eqn:HID.
    + by rewrite (OutputLookup_hit _ _ _ _ HID).
    + assert (ID <> ID') by congruence.
      rewrite (OutputLookup_miss _ _ _ HID). cbv zeta.
      pose proof (lookupModuleOutput_PCMPaths MLO ID ModuleFile
        (mkState (trace s) (mloContext s) (errorCell s) (<[ID := ""]> (PCMPaths s)))) as HP.
      destruct (lookupModuleOutput _ _ _ _) as [[Path|e] s1]; cbn [fst snd PCMPaths] in *.
      * by rewrite HP, !lookup_insert_ne.
      * by rewrite HP, lookup_insert_ne.
  - rewrite (OutputLookup_other_kind _ _ _ _ Hk), lookupModuleOutput_PCMPaths. exact Hc.
Qed.

(** An entry of the cache is never changed or removed: whatever is resolved
    next, for whichever identity and kind, and whether or not that lookup
    returns, an identity that was cached stays cached with the same path. *)
Theorem OutputLookup_cache_stable MLO ID MOK s ID' Path' :
  PCMPaths s !! ID' = Some Path' ->
  PCMPaths (OutputLookup_lookupModuleOutput MLO ID MOK s).2 !! ID' = Some Path'.
Proof. apply OutputLookup_keeps_entry. Qed.

(** A module-file lookup of an identity that is not cached, when it
    returns, returns what the uncached lookup returns and leaves the cache
    with exactly one entry more, the identity with the returned path: the
    empty placeholder inserted before the lookup does not stay. *)
Theorem OutputLookup_miss_adds_entry MLO ID s Path s1 :
  PCMPaths s !! ID = None ->
  OutputLookup_lookupModuleOutput MLO ID ModuleFile s = (Ret Path, s1) ->
  PCMPaths s1 = <[ID := Path]> (PCMPaths s) /\
  PCMPaths s1 !! ID = Some Path /\
  (lookupModuleOutput ID ModuleFile MLO s).1 = Ret Path /\
  trace s1 = trace (lookupModuleOutput ID ModuleFile MLO s).2 /\
  mloContext s1 = mloContext (lookupModuleOutput ID ModuleFile MLO s).2.
Proof.
  intros Hmiss. rewrite (OutputLookup_miss _ _ _ Hmiss). cbv zeta.
  fold (withPCMPaths s (<[ID := ""]> (PCMPaths s))).
  rewrite lookupModuleOutput_frame. cbn [fst snd].
  destruct (lookupModuleOutput ID ModuleFile MLO s) as [[p|e] s2]; [|discriminate].
  cbn [fst snd withPCMPaths trace mloContext errorCell PCMPaths].
  intros [= -> <-]. cbn [PCMPaths trace mloContext].
  rewrite insert_insert_eq. split; [reflexivity|]. split; [apply lookup_insert_eq|].
  done.
Qed.

(** Every invocation of the callback that a lookup makes carries the name
    and context hash of the identity asked for and the C value of the kind
    asked for, and the four kinds have four different C values. *)
Theorem OutputLookup_callback_arguments MLO ID MOK s :
  (exists evs,
     trace (OutputLookup_lookupModuleOutput MLO ID MOK s).2 = trace s ++ evs /\
     Forall (fun e => exists Size,
               e = EvMLO (ModuleName ID) (ContextHash ID) (wrap MOK) Size) evs) /\
  (forall K1 K2, wrap K1 = wrap K2 -> K1 = K2).
Proof.
  split; [|by intros [] [] [=]].
  assert (Hraw : forall K s0, exists evs,
    trace (lookupModuleOutput ID K MLO s0).2 = trace s0 ++ evs /\
    Forall (fun e => exists Size,
              e = EvMLO (ModuleName ID) (ContextHash ID) (wrap K) Size) evs).
  { intros K s0. rewrite lookupModuleOutput_eq. cbv zeta.
    destruct (MLO (mloContext s0) _ _ _ 256) as [[Out1 Len1] c1].
    destruct (decide (256 < Len1)).
    - destruct (MLO c1 _ _ _ Len1) as [[Out2 Len2] c2].
      eexists. split; [reflexivity|]. repeat constructor; eauto.
    - eexists. split; [reflexivity|]. repeat constructor; eauto. }
  destruct (decide (MOK = ModuleFile)) as [->|Hk].
  - destruct (PCMPaths s !! ID) as [Path|] eqn:HID.
    + rewrite (OutputLookup_hit _ _ _ _ HID). exists []. by rewrite app_nil_r.
    + rewrite (OutputLookup_miss _ _ _ HID). cbv zeta.
      destruct (Hraw ModuleFile
        (mkState (trace s) (mloContext s) (errorCell s) (<[ID := ""]> (PCMPaths s))))
        as (evs & Ht & Hf).
      exists evs. split; [|exact Hf].
      destruct (lookupModuleOutput _ _ _ _) as [[Path|e] s1]; exact Ht.
  - rewrite (OutputLookup_other_kind _ _ _ _ Hk). apply Hraw.
Qed.

Lemma OutputLookup_count_le MLO ID MOK s :
  mloCount (trace (OutputLookup_lookupModuleOutput MLO ID MOK s).2)
  <= mloCount (trace s) + 2.
Proof.
  destruct (decide (MOK = ModuleFile)) as [->|Hk].
  - destruct (PCMPaths s !! ID) as [Path|] eqn:HID.
    + rewrite (OutputLookup_hit _ _ _ _ HID). cbn [snd]. lia.
    + rewrite (OutputLookup_miss _ _ _ HID). cbv zeta.
      pose proof (lookupModuleOutput_count MLO ID ModuleFile
        (mkState (trace s) (mloContext s) (errorCell s) (<[ID := ""]> (PCMPaths s)))) as Hc.
      cbn [trace] in Hc.
      destruct (lookupModuleOutput _ _ _ _) as [[Path|e] s1]; cbn [fst snd trace] in *;
        rewrite Hc; case_decide; lia.
  - rewrite (OutputLookup_other_kind _ _ _ _ Hk), lookupModuleOutput_count.
    case_decide; lia.
Qed.

(** A list of lookups answers every request, in order, and costs at most
    two invocations of the callback per request. *)
Theorem lookupAll_length_and_cost MLO Requests s :
  let r := lookupAll (OutputLookup_lookupModuleOutput MLO) Requests s in
  mloCount (trace r.2) <= mloCount (trace s) + 2 * length Requests /\
  (forall Paths, r.1 = Ret Paths -> length Paths = length Requests).
Proof.
  cbv zeta. revert s. induction Requests as [|[ID MOK] Rest IH]; intros s.
  - cbn. split; [lia|]. by intros ? [= <-].
  - cbn [lookupAll length]. unfold bind at 1 3.
    pose proof (OutputLookup_count_le MLO ID MOK s) as H1.
    destruct (OutputLookup_lookupModuleOutput MLO ID MOK s) as [[Path|e] s1];
      cbn [snd] in H1.
    + unfold bind. destruct (IH s1) as [Hc Hl].
      destruct (lookupAll _ Rest s1) as [[Paths|e] s2]; unfold ret; cbn [fst snd] in *.
      * split; [lia|]. intros ? [= <-]. cbn [length]. by rewrite (Hl Paths eq_refl).
      * split; [lia|]. discriminate.
    + cbn [fst snd]. split; [lia|]. discriminate.
Qed.

Lemma lookupAll_cache_stable MLO Requests s ID' Path' :
  PCMPaths s !! ID' = Some Path' ->
  PCMPaths (lookupAll (OutputLookup_lookupModuleOutput MLO) Requests s).2 !! ID'
    = Some Path'.
Proof.
  revert s. induction Requests as [|[ID MOK] Rest IH]; intros s Hc; [exact Hc|].
  cbn [lookupAll]. unfold bind at 1.
  pose proof (OutputLookup_keeps_entry MLO ID MOK s ID' Path' Hc) as H1.
  destruct (OutputLookup_lookupModuleOutput MLO ID MOK s) as [[Path|e] s1];
    cbn [snd] in H1; [|exact H1].
  unfold bind. specialize (IH s1 H1).
  destruct (lookupAll _ Rest s1) as [[Paths|e] s2]; exact IH.
Qed.

Lemma OutputLookup_returned_is_cached MLO ID s Path s1 :
  OutputLookup_lookupModuleOutput MLO ID ModuleFile s = (Ret Path, s1) ->
  PCMPaths s1 !! ID = Some Path.
Proof.
  destruct (PCMPaths s !! ID) as [p|] eqn:HID.
  - rewrite (OutputLookup_hit _ _ _ _ HID). by intros [= <- <-].
  - rewrite (OutputLookup_miss _ _ _ HID). cbv zeta.
    destruct (lookupModuleOutput _ _ _ _) as [[p|e] s2]; [|discriminate].
    cbn [fst snd]. intros [= <- <-]. apply lookup_insert_eq.
Qed.

Lemma lookupAll_cached MLO Requests Paths s :
  Forall2 (fun Q Path => Q.2 = ModuleFile /\ PCMPaths s !! Q.1 = Some Path)
          Requests Paths ->
  lookupAll (OutputLookup_lookupModuleOutput MLO) Requests s = (Ret Paths, s).
Proof.
  induction 1 as [|[ID MOK] Path Rest Paths [Hk Hc] _ IH]; [reflexivity|].
  cbn [fst snd] in *. subst MOK. cbn [lookupAll]. unfold bind at 1.
  rewrite (OutputLookup_hit _ _ _ _ Hc). unfold bind. by rewrite IH.
Qed.

Lemma lookupAll_results_cached MLO Requests s Paths s1 :
  Forall isModuleFile Requests ->
  lookupAll (OutputLookup_lookupModuleOutput MLO) Requests s = (Ret Paths, s1) ->
  Forall2 (fun Q Path => Q.2 = ModuleFile /\ PCMPaths s1 !! Q.1 = Some Path)
          Requests Paths.
Proof.
  intros Hall. revert s Paths s1.
  induction Hall as [|[ID MOK] Rest Hk _ IH]; intros s Paths s1.
  - cbn. intros [= <- <-]. constructor.
  - unfold isModuleFile in Hk. cbn [snd] in Hk. subst MOK.
    cbn [lookupAll]. unfold bind at 1.
    destruct (OutputLookup_lookupModuleOutput MLO ID ModuleFile s) as [[Path|e] s2] eqn:H1;
      [|discriminate].
    unfold bind. destruct (lookupAll _ Rest s2) as [[Ps|e] s3] eqn:H2; [|discriminate].
    unfold ret. intros [= <- <-]. constructor; [|by eapply IH].
    split; [reflexivity|]. cbn [fst].
    pose proof (lookupAll_cache_stable MLO Rest s2 ID Path
                  (OutputLookup_returned_is_cached _ _ _ _ _ H1)) as Hst.
    by rewrite H2 in Hst.
Qed.

(** Asking again costs nothing: after a list of module-file lookups has
    returned, the same list of lookups returns the same paths without
    invoking the callback and without changing the state. *)
Theorem lookupAll_module_files_idempotent MLO Requests s Paths s1 :
  Forall isModuleFile Requests ->
  lookupAll (OutputLookup_lookupModuleOutput MLO) Requests s = (Ret Paths, s1) ->
  lookupAll (OutputLookup_lookupModuleOutput MLO) Requests s1 = (Ret Paths, s1).
Proof.
  intros Hall Hrun. apply lookupAll_cached. by eapply lookupAll_results_cached.
Qed.

End CacheMap.

Lemma OutputLookup_cache_stable_witness :
  PCMPaths (OutputLookup_lookupModuleOutput callbackShort ID_hex ModuleFile cachedState).2
    !! ID_M = Some "M.pcm".
Proof.
  apply (OutputLookup_cache_stable callbackShort ID_hex ModuleFile cachedState ID_M "M.pcm").
  apply lookup_insert_eq.
Defined.

Lemma OutputLookup_miss_adds_entry_witness :
  PCMPaths cachedState = <[ID_M := "M.pcm"]> (PCMPaths (initialState 0)) /\
  PCMPaths cachedState !! ID_M = Some "M.pcm".
Proof.
  destruct (OutputLookup_miss_adds_entry callbackShort ID_M (initialState 0) "M.pcm"
              cachedState (lookup_empty _) OutputLookup_short_path_first)
    as (H1 & H2 & _).
  by split.
Defined.

Lemma lookupAll_module_files_idempotent_witness :
  let Requests := [(ID_M, ModuleFile); (ID_hex, ModuleFile); (ID_M, ModuleFile)] in
  let s1 := (lookupAll (OutputLookup_lookupModuleOutput callbackShort) Requests
               (initialState 0)).2 in
  lookupAll (OutputLookup_lookupModuleOutput callbackShort) Requests s1
  = (Ret ["M.pcm"; "M.pcm"; "M.pcm"], s1).
Proof.
  cbv zeta.
  apply (lookupAll_module_files_idempotent callbackShort _ (initialState 0)).
  - by repeat constructor.
  - vm_compute. reflexivity.
Defined.

(** ** The engine call *)

Lemma lookupsOnly_omap {Ctx A : Type} (f : Event -> option A) (s s1 : State Ctx) evs :
  (forall n h k b, f (EvMLO n h k b) = None) ->
  lookupsOnly (withEvents s evs) s1 ->
  omap f (trace s1) = omap f (trace s) ++ omap f evs.
Proof.
  intros Hf [_ (ls & Ht & Hall)]. rewrite Ht. cbn [withEvents trace].
  rewrite !omap_app.
  assert (Hnil : omap f ls = []).
  { clear Ht. induction Hall as [|e ls He _ IH]; [reflexivity|].
    destruct e; try discriminate. cbn. by rewrite Hf. }
  by rewrite Hnil, app_nil_r.
Qed.

Lemma engineCalls_notifications FDR : engineCalls (notifications FDR) = [].
Proof. unfold notifications. by destruct (is_empty _). Qed.

Lemma handlerCalls_notifications FDR : handlerCalls (notifications FDR) = [FullDeps FDR].
Proof. unfold notifications. by destruct (is_empty _). Qed.

Section EngineCall.

Context {Ctx : Type}.
Implicit Types (MLO : CXModuleLookupOutputCallback Ctx) (s : State Ctx).

Lemma engine_phase_engineCalls MLO Worker WorkingDirectory Compilation ModuleName s o s1 :
  computeDependencies Worker WorkingDirectory Compilation
    (OutputLookup_lookupModuleOutput MLO) ModuleName s = (o, s1) ->
  engineCalls (trace s1)
  = engineCalls (trace s) ++ [(WorkingDirectory, Compilation, ModuleName)].
Proof.
  intros Heng.
  pose proof (computeDependencies_trace MLO Worker WorkingDirectory Compilation
                ModuleName s) as Htr.
  rewrite Heng in Htr. cbn [snd] in Htr.
  unfold engineCalls. by rewrite (lookupsOnly_omap _ _ _ _ (fun _ _ _ _ => eq_refl) Htr).
Qed.

Lemma engine_phase_handlerCalls MLO Worker WorkingDirectory Compilation ModuleName s o s1 :
  computeDependencies Worker WorkingDirectory Compilation
    (OutputLookup_lookupModuleOutput MLO) ModuleName s = (o, s1) ->
  handlerCalls (trace s1) = handlerCalls (trace s).
Proof.
  intros Heng.
  pose proof (computeDependencies_trace MLO Worker WorkingDirectory Compilation
                ModuleName s) as Htr.
  rewrite Heng in Htr. cbn [snd] in Htr.
  unfold handlerCalls. rewrite (lookupsOnly_omap _ _ _ _ (fun _ _ _ _ => eq_refl) Htr).
  cbn. by rewrite app_nil_r.
Qed.

Lemma v3_engineCalls Worker argc Args ModuleName WorkingDirectory MLO error s :
  (2 <= argc)%Z -> getFormat Worker = Full -> Z.to_nat argc <= length Args ->
  engineCalls (trace (clang_experimental_DependencyScannerWorker_getFileDependencies_v3
                        (Some Worker) argc (Some Args) ModuleName WorkingDirectory MLO
                        error s).2)
  = engineCalls (trace s) ++ [(WorkingDirectory, take (Z.to_nat argc) Args, ModuleName)].
Proof.
  intros Hge Hfmt Hlen. rewrite v3_accepted by done. cbv zeta.
  destruct (computeDependencies _ _ _ _ _ _) as [[[Message|Data]|e] s1] eqn:Heng;
    apply engine_phase_engineCalls in Heng; cbn [scanEntryState trace] in Heng.
  - by destruct error.
  - destruct (is_empty _); cbn [snd withEvents trace]; unfold engineCalls in *;
      rewrite omap_app; fold (engineCalls (notifications
        (mkFDR (discover (ReportedModules Data) ∅).1
               (LegacyFullDeps Data (take (Z.to_nat argc) Args)))));
      by rewrite engineCalls_notifications, app_nil_r.
  - exact Heng.
Qed.

Lemma v4_engineCalls Worker argc Args ModuleName WorkingDirectory MLO error s :
  (2 <= argc)%Z -> getFormat Worker = Full -> Z.to_nat argc <= length Args ->
  engineCalls (trace (clang_experimental_DependencyScannerWorker_getFileDependencies_v4
                        (Some Worker) argc (Some Args) ModuleName WorkingDirectory MLO
                        error s).2)
  = engineCalls (trace s) ++ [(WorkingDirectory, take (Z.to_nat argc) Args, ModuleName)].
Proof.
  intros Hge Hfmt Hlen. rewrite v4_accepted by done. cbv zeta.
  destruct (computeDependencies _ _ _ _ _ _) as [[[Message|Data]|e] s1] eqn:Heng;
    apply engine_phase_engineCalls in Heng; cbn [scanEntryState trace] in Heng.
  - by destruct error.
  - destruct (is_empty _); cbn [snd withEvents trace]; unfold engineCalls in *;
      rewrite omap_app; fold (engineCalls (notifications
        (mkFDR (discover (ReportedModules Data) ∅).1 (TakenFullDeps Data))));
      by rewrite engineCalls_notifications, app_nil_r.
  - exact Heng.
Qed.

(** A call that passes the validation invokes the engine exactly once,
    whatever happens afterwards, with the working directory and the module
    name as given and with exactly the first [argc] strings of [argv] as
    the command: strings of the array beyond [argc] are not passed on. *)
Theorem accepted_call_invokes_engine_once Worker argc Args ModuleName WorkingDirectory
    MLO error s :
  (2 <= argc)%Z -> getFormat Worker = Full -> Z.to_nat argc <= length Args ->
  let Called := (WorkingDirectory, take (Z.to_nat argc) Args, ModuleName) in
  engineCalls (trace (clang_experimental_DependencyScannerWorker_getFileDependencies_v3
                        (Some Worker) argc (Some Args) ModuleName WorkingDirectory MLO
                        error s).2)
    = engineCalls (trace s) ++ [Called] /\
  engineCalls (trace (clang_experimental_DependencyScannerWorker_getFileDependencies_v4
                        (Some Worker) argc (Some Args) ModuleName WorkingDirectory MLO
                        error s).2)
    = engineCalls (trace s) ++ [Called] /\
  length (take (Z.to_nat argc) Args) = Z.to_nat argc.
Proof.
  intros Hge Hfmt Hlen Called. split; [by apply v3_engineCalls|].
  split; [by apply v4_engineCalls|]. rewrite length_take. lia.
Qed.

End EngineCall.

Lemma accepted_call_invokes_engine_once_witness :
  engineCalls (trace (clang_experimental_DependencyScannerWorker_getFileDependencies_v3
                        (Some sampleWorker) 2 (Some sampleCommand) (Some "M") "/src"
                        callbackShort ErrorPtr (initialState 0)).2)
  = [("/src", ["clang"; "-c"], Some "M")].
Proof.
  destruct (accepted_call_invokes_engine_once sampleWorker 2 sampleCommand (Some "M")
              "/src" callbackShort ErrorPtr (initialState 0)
              ltac:(lia) eq_refl ltac:(cbn; lia)) as [H _].
  exact H.
Defined.

(** ** Failure, success and the state of the caller *)

Section CallerState.

Context {Ctx : Type}.
Implicit Types (MLO : CXModuleLookupOutputCallback Ctx) (s : State Ctx).

Lemma engine_phase_mdcCalls MLO Worker WorkingDirectory Compilation ModuleName s o s1 :
  computeDependencies Worker WorkingDirectory Compilation
    (OutputLookup_lookupModuleOutput MLO) ModuleName s = (o, s1) ->
  mdcCalls (trace s1) = mdcCalls (trace s).
Proof.
  intros Heng.
  pose proof (computeDependencies_trace MLO Worker WorkingDirectory Compilation
                ModuleName s) as Htr.
  rewrite Heng in Htr. cbn [snd] in Htr.
  pose proof (lookupsOnly_mdcCalls _ _ _ Htr) as H. cbn in H.
  by rewrite app_nil_r in H.
Qed.

(** When the engine fails, nothing is notified: neither entry point invokes
    the discovery callback or the result handler, whatever [error] is. *)
Theorem engine_failure_notifies_nothing Worker argc Args ModuleName WorkingDirectory
    MLO error s Message :
  (2 <= argc)%Z -> getFormat Worker = Full -> Z.to_nat argc <= length Args ->
  (computeDependencies Worker WorkingDirectory (take (Z.to_nat argc) Args)
     (OutputLookup_lookupModuleOutput MLO) ModuleName (scanEntryState error s)).1
    = Ret (EngineError Message) ->
  let r3 := clang_experimental_DependencyScannerWorker_getFileDependencies_v3
              (Some Worker) argc (Some Args) ModuleName WorkingDirectory MLO error s in
  let r4 := clang_experimental_DependencyScannerWorker_getFileDependencies_v4
              (Some Worker) argc (Some Args) ModuleName WorkingDirectory MLO error s in
  mdcCalls (trace r3.2) = mdcCalls (trace s) /\
  handlerCalls (trace r3.2) = handlerCalls (trace s) /\
  mdcCalls (trace r4.2) = mdcCalls (trace s) /\
  handlerCalls (trace r4.2) = handlerCalls (trace s).
Proof.
  intros Hge Hfmt Hlen Heng r3 r4. subst r3 r4.
  rewrite v3_accepted, v4_accepted by done. cbv zeta.
  destruct (computeDependencies _ _ _ _ _ _) as [o s1] eqn:Hrun.
  cbn [fst] in Heng. subst o.
  pose proof (engine_phase_mdcCalls _ _ _ _ _ _ _ _ Hrun) as Hm.
  pose proof (engine_phase_handlerCalls _ _ _ _ _ _ _ _ Hrun) as Hh.
  cbn [scanEntryState trace] in Hm, Hh.
  by destruct error; cbn [fst snd withError trace].
Qed.

(** With a null [error] a scan that succeeds stores nothing and returns its
    result: of the paths through an entry point, only the failure of the
    engine needs [error] to be non-null. *)
Theorem null_error_on_success Worker argc Args ModuleName WorkingDirectory MLO s Data :
  (2 <= argc)%Z -> getFormat Worker = Full -> Z.to_nat argc <= length Args ->
  (computeDependencies Worker WorkingDirectory (take (Z.to_nat argc) Args)
     (OutputLookup_lookupModuleOutput MLO) ModuleName (scanEntryState NullPtr s)).1
    = Ret (EngineSuccess Data) ->
  DriverCommandLine (LegacyFullDeps Data (take (Z.to_nat argc) Args)) <> [] ->
  DriverCommandLine (TakenFullDeps Data) = [] ->
  let r3 := clang_experimental_DependencyScannerWorker_getFileDependencies_v3
              (Some Worker) argc (Some Args) ModuleName WorkingDirectory MLO NullPtr s in
  let r4 := clang_experimental_DependencyScannerWorker_getFileDependencies_v4
              (Some Worker) argc (Some Args) ModuleName WorkingDirectory MLO NullPtr s in
  (exists F, r3.1 = Ret (Some F)) /\ errorCell r3.2 = errorCell s /\
  (exists L, r4.1 = Ret (Some L)) /\ errorCell r4.2 = errorCell s.
Proof.
  intros Hge Hfmt Hlen Heng H3 H4 r3 r4. subst r3 r4.
  rewrite v3_accepted, v4_accepted by done. cbv zeta.
  destruct (computeDependencies _ _ _ _ _ _) as [o s1] eqn:Hrun.
  cbn [fst] in Heng. subst o.
  pose proof (engine_phase_errorCell _ _ _ _ _ _ _ _ Hrun) as He.
  cbn [scanEntryState errorCell] in He. cbn [FullDeps].
  apply is_empty_false in H3. apply is_empty_true in H4. rewrite H3, H4.
  cbn [fst snd withEvents errorCell].
  split; [eauto|]. split; [exact He|]. split; [eauto | exact He].
Qed.

(** The cache of output paths belongs to the call: an entry point behaves
    the same whatever the cache held when it was called, so a path cached
    during one call is looked up again in the next. *)
Theorem cache_is_per_call W argc argv ModuleName WorkingDirectory MLO error s P :
  clang_experimental_DependencyScannerWorker_getFileDependencies_v3
    W argc argv ModuleName WorkingDirectory MLO error (withPCMPaths s P)
  = clang_experimental_DependencyScannerWorker_getFileDependencies_v3
      W argc argv ModuleName WorkingDirectory MLO error s /\
  clang_experimental_DependencyScannerWorker_getFileDependencies_v4
    W argc argv ModuleName WorkingDirectory MLO error (withPCMPaths s P)
  = clang_experimental_DependencyScannerWorker_getFileDependencies_v4
      W argc argv ModuleName WorkingDirectory MLO error s.
Proof.
  unfold clang_experimental_DependencyScannerWorker_getFileDependencies_v3,
    clang_experimental_DependencyScannerWorker_getFileDependencies_v4.
  split; unfold bind at 1 3; reflexivity.
Qed.

(** The v4 result repeats the data of the translation unit in every command
    record: each record carries the same context hash, file dependencies
    and encoded module dependencies; an engine without commands gives a
    result that is not null and has no record. *)
Theorem v4_records_share_unit_data Worker argc Args ModuleName WorkingDirectory MLO
    error s Data :
  (2 <= argc)%Z -> getFormat Worker = Full -> Z.to_nat argc <= length Args ->
  (computeDependencies Worker WorkingDirectory (take (Z.to_nat argc) Args)
     (OutputLookup_lookupModuleOutput MLO) ModuleName (scanEntryState error s)).1
    = Ret (EngineSuccess Data) ->
  DriverCommandLine (TakenFullDeps Data) = [] ->
  exists L,
    (clang_experimental_DependencyScannerWorker_getFileDependencies_v4
       (Some Worker) argc (Some Args) ModuleName WorkingDirectory MLO error s).1
      = Ret (Some L) /\
    Forall (fun C =>
              C_ContextHash C = ContextHash (FD_ID (TakenFullDeps Data)) /\
              C_FileDeps C = FD_FileDeps (TakenFullDeps Data) /\
              C_ModuleDeps C
                = moduleDepStrings (FD_ClangModuleDeps (TakenFullDeps Data))) L /\
    (Commands (TakenFullDeps Data) = [] -> L = []).
Proof.
  intros Hge Hfmt Hlen Heng H4. rewrite v4_accepted by done. cbv zeta.
  destruct (computeDependencies _ _ _ _ _ _) as [o s1]. cbn [fst] in Heng. subst o.
  cbn [FullDeps]. apply is_empty_true in H4. rewrite H4. cbn [fst].
  eexists. split; [reflexivity|]. split.
  - apply Forall_forall. intros C (Cmd & -> & _)%list_elem_of_fmap. done.
  - by intros ->.
Qed.

(** The checks are made in a fixed order and the first that fails decides
    the message: a null worker is reported whatever the arguments are, and
    bad arguments are reported whatever the format of the worker is. *)
Theorem validation_order Worker argc argv argc' argv' ModuleName WorkingDirectory MLO s :
  (argc' < 2)%Z \/ argv' = None ->
  errorCell (clang_experimental_DependencyScannerWorker_getFileDependencies_v3
               None argc argv ModuleName WorkingDirectory MLO ErrorPtr s).2
    = Some "missing CXDependencyScannerWorker" /\
  errorCell (clang_experimental_DependencyScannerWorker_getFileDependencies_v4
               None argc argv ModuleName WorkingDirectory MLO ErrorPtr s).2
    = Some "missing CXDependencyScannerWorker" /\
  errorCell (clang_experimental_DependencyScannerWorker_getFileDependencies_v3
               (Some Worker) argc' argv' ModuleName WorkingDirectory MLO ErrorPtr s).2
    = Some "invalid argc or argv" /\
  errorCell (clang_experimental_DependencyScannerWorker_getFileDependencies_v4
               (Some Worker) argc' argv' ModuleName WorkingDirectory MLO ErrorPtr s).2
    = Some "invalid argc or argv".
Proof.
  intros Hbad.
  assert (H1 : Rejected None argc argv "missing CXDependencyScannerWorker")
    by apply Rejected_worker.
  assert (H2 : Rejected (Some Worker) argc' argv' "invalid argc or argv").
  { destruct Hbad as [Hlt| ->]; [by apply Rejected_argc | apply Rejected_argv]. }
  by rewrite (v3_rejected _ _ _ _ _ _ _ _ _ H1), (v4_rejected _ _ _ _ _ _ _ _ _ H1),
    (v3_rejected _ _ _ _ _ _ _ _ _ H2), (v4_rejected _ _ _ _ _ _ _ _ _ H2).
Qed.


End CallerState.

Lemma engine_failure_notifies_nothing_witness :
  mdcCalls (trace (clang_experimental_DependencyScannerWorker_getFileDependencies_v3
                     (Some failingWorker) 3 (Some sampleCommand) None "/src"
                     callbackShort ErrorPtr (initialState 0)).2) = [] /\
  handlerCalls (trace (clang_experimental_DependencyScannerWorker_getFileDependencies_v3
                         (Some failingWorker) 3 (Some sampleCommand) None "/src"
                         callbackShort ErrorPtr (initialState 0)).2) = [].
Proof.
  destruct (engine_failure_notifies_nothing failingWorker 3 sampleCommand None "/src"
              callbackShort ErrorPtr (initialState 0) "a.cpp: file not found"
              ltac:(lia) eq_refl ltac:(cbn; lia) eq_refl) as (H1 & H2 & _).
  by split.
Defined.

Lemma null_error_on_success_witness :
  (exists F,
     (clang_experimental_DependencyScannerWorker_getFileDependencies_v3
        (Some sampleWorker) 3 (Some sampleCommand) None "/src" callbackShort NullPtr
        (initialState 0)).1 = Ret (Some F)) /\
  errorCell (clang_experimental_DependencyScannerWorker_getFileDependencies_v3
               (Some sampleWorker) 3 (Some sampleCommand) None "/src" callbackShort
               NullPtr (initialState 0)).2 = None.
Proof.
  destruct (null_error_on_success sampleWorker 3 sampleCommand None "/src" callbackShort
              (initialState 0) sampleData
              ltac:(lia) eq_refl ltac:(cbn; lia) ltac:(vm_compute; reflexivity)
              ltac:(discriminate) eq_refl) as (H1 & H2 & _).
  by split.
Defined.

Lemma v4_records_share_unit_data_witness :
  exists L,
    (clang_experimental_DependencyScannerWorker_getFileDependencies_v4
       (Some sampleWorker) 3 (Some sampleCommand) None "/src" callbackShort ErrorPtr
       (initialState 0)).1 = Ret (Some L) /\
    Forall (fun C =>
              C_ContextHash C = "H0" /\ C_FileDeps C = ["a.h"] /\
              C_ModuleDeps C = ["M:H1"; "Foundation:2F8A1C0D9E3B"]) L.
Proof.
  destruct (v4_records_share_unit_data sampleWorker 3 sampleCommand None "/src"
              callbackShort ErrorPtr (initialState 0) sampleData
              ltac:(lia) eq_refl ltac:(cbn; lia) ltac:(vm_compute; reflexivity) eq_refl)
    as (L & HL & Hall & _).
  exists L. split; [exact HL | exact Hall].
Defined.

Lemma validation_order_witness :
  errorCell (clang_experimental_DependencyScannerWorker_getFileDependencies_v3
               None 1 None None "/src" callbackShort ErrorPtr (initialState 0)).2
    = Some "missing CXDependencyScannerWorker" /\
  errorCell (clang_experimental_DependencyScannerWorker_getFileDependencies_v3
               (Some flatWorker) 1 (Some ["clang"]) None "/src" callbackShort ErrorPtr
               (initialState 0)).2
    = Some "invalid argc or argv".
Proof.
  destruct (validation_order flatWorker 1 None 1 (Some ["clang"]) None "/src"
              callbackShort (initialState 0) ltac:(left; lia)) as (H1 & _ & H2 & _).
  by split.
Defined.


(** ** Calls that return *)

Section Returns.

Context {Ctx : Type}.
Implicit Types (MLO : CXModuleLookupOutputCallback Ctx) (s : State Ctx).

Lemma lookupModuleOutput_returns MLO ID MOK s :
  retryFits MLO -> exists Path, (lookupModuleOutput ID MOK MLO s).1 = Ret Path.
Proof.
  intros Hfit. rewrite lookupModuleOutput_eq. cbv zeta.
  specialize (Hfit (mloContext s) (ModuleName ID) (ContextHash ID) (wrap MOK)).
  destruct (MLO (mloContext s) _ _ _ 256) as [[Out1 Len1] c1]. cbn [fst snd] in Hfit.
  destruct (decide (256 < Len1)) as [Hgt|]; [|eauto].
  specialize (Hfit Hgt).
  destruct (MLO c1 _ _ _ Len1) as [[Out2 Len2] c2]. cbn [fst snd] in *.
  destruct (decide (Len2 <= Len1)); [eauto | lia].
Qed.

Lemma OutputLookup_returns MLO ID MOK s :
  retryFits MLO ->
  exists Path, (OutputLookup_lookupModuleOutput MLO ID MOK s).1 = Ret Path.
Proof.
  intros Hfit. destruct (decide (MOK = ModuleFile)) as [->|Hk].
  - destruct (PCMPaths s !! ID) as [Path|] eqn:HID.
    + rewrite (OutputLookup_hit _ _ _ _ HID). eauto.
    + rewrite (OutputLookup_miss _ _ _ HID). cbv zeta.
      destruct (lookupModuleOutput_returns MLO ID ModuleFile
        (mkState (trace s) (mloContext s) (errorCell s) (<[ID := ""]> (PCMPaths s))) Hfit)
        as [Path HP].
      destruct (lookupModuleOutput _ _ _ _) as [o s1]. cbn [fst] in HP. subst o. eauto.
  - rewrite (OutputLookup_other_kind _ _ _ _ Hk). by apply lookupModuleOutput_returns.
Qed.

Lemma lookupAll_returns MLO Requests s :
  retryFits MLO ->
  exists Paths, (lookupAll (OutputLookup_lookupModuleOutput MLO) Requests s).1 = Ret Paths.
Proof.
  intros Hfit. revert s. induction Requests as [|[ID MOK] Rest IH]; intros s; [by eexists|].
  cbn [lookupAll]. unfold bind at 1.
  destruct (OutputLookup_returns MLO ID MOK s Hfit) as [Path HP].
  destruct (OutputLookup_lookupModuleOutput MLO ID MOK s) as [o s1]. cbn [fst] in HP.
  subst o. unfold bind. destruct (IH s1) as [Paths HPs].
  destruct (lookupAll _ Rest s1) as [o s2]. cbn [fst] in HPs. subst o. by eexists.
Qed.

Lemma computeDependencies_returns MLO Worker WorkingDirectory Compilation ModuleName s :
  retryFits MLO ->
  exists Result,
    (computeDependencies Worker WorkingDirectory Compilation
       (OutputLookup_lookupModuleOutput MLO) ModuleName s).1 = Ret Result.
Proof.
  intros Hfit. unfold computeDependencies, bind at 1, emit. cbv zeta. unfold bind.
  destruct (lookupAll_returns MLO
    (Lookups (Engine Worker WorkingDirectory Compilation ModuleName))
    (mkState (trace s ++ [EvComputeDependencies WorkingDirectory Compilation ModuleName])
       (mloContext s) (errorCell s) (PCMPaths s)) Hfit) as [Paths HP].
  destruct (lookupAll _ _ _) as [o s1]. cbn [fst] in HP. subst o. by eexists.
Qed.

(** With a non-null [error], at least two arguments of which [argv] has as
    many as [argc] says, a callback whose second report fits the buffer it
    asked for, and an engine whose legacy command line is never empty, the
    v3 entry point returns: it does not stop on an assertion, a null store
    or a read past a buffer, for any worker, format and engine outcome. *)
Theorem v3_returns W argc Args ModuleName WorkingDirectory MLO s :
  Z.to_nat argc <= length Args ->
  retryFits MLO ->
  (forall Worker Paths Data,
     W = Some Worker ->
     Finish (Engine Worker WorkingDirectory (take (Z.to_nat argc) Args) ModuleName) Paths
       = EngineSuccess Data ->
     DriverCommandLine (LegacyFullDeps Data (take (Z.to_nat argc) Args)) <> []) ->
  exists F,
    (clang_experimental_DependencyScannerWorker_getFileDependencies_v3
       W argc (Some Args) ModuleName WorkingDirectory MLO ErrorPtr s).1 = Ret F.
Proof.
  intros Hlen Hfit Hlegacy.
  destruct (validation_cases W argc (Some Args))
    as [[Message Hrej]|(Worker & Args' & -> & [= <-] & Hge & Hfmt)].
  - rewrite (v3_rejected _ _ _ _ _ _ _ _ _ Hrej). eauto.
  - rewrite v3_accepted by done. cbv zeta.
    destruct (computeDependencies_returns MLO Worker WorkingDirectory
                (take (Z.to_nat argc) Args) ModuleName (scanEntryState ErrorPtr s) Hfit)
      as [Result HR].
    destruct (computeDependencies _ _ _ _ _ _) as [o s1] eqn:Hrun. cbn [fst] in HR.
    subst o. destruct Result as [Message|Data]; [eauto|].
    destruct (computeDependencies_outcome _ _ _ _ _ _ _ _ Hrun) as [Paths HP].
    cbn [FullDeps].
    pose proof (Hlegacy Worker Paths Data eq_refl HP) as Hne.
    apply is_empty_false in Hne. rewrite Hne. eauto.
Qed.

(** The same for the v4 entry point, for an engine whose translation-unit
    record never carries a driver command line. *)
Theorem v4_returns W argc Args ModuleName WorkingDirectory MLO s :
  Z.to_nat argc <= length Args ->
  retryFits MLO ->
  (forall Worker Paths Data,
     W = Some Worker ->
     Finish (Engine Worker WorkingDirectory (take (Z.to_nat argc) Args) ModuleName) Paths
       = EngineSuccess Data ->
     DriverCommandLine (TakenFullDeps Data) = []) ->
  exists L,
    (clang_experimental_DependencyScannerWorker_getFileDependencies_v4
       W argc (Some Args) ModuleName WorkingDirectory MLO ErrorPtr s).1 = Ret L.
Proof.
  intros Hlen Hfit Htaken.
  destruct (validation_cases W argc (Some Args))
    as [[Message Hrej]|(Worker & Args' & -> & [= <-] & Hge & Hfmt)].
  - rewrite (v4_rejected _ _ _ _ _ _ _ _ _ Hrej). eauto.
  - rewrite v4_accepted by done. cbv zeta.
    destruct (computeDependencies_returns MLO Worker WorkingDirectory
                (take (Z.to_nat argc) Args) ModuleName (scanEntryState ErrorPtr s) Hfit)
      as [Result HR].
    destruct (computeDependencies _ _ _ _ _ _) as [o s1] eqn:Hrun. cbn [fst] in HR.
    subst o. destruct Result as [Message|Data]; [eauto|].
    destruct (computeDependencies_outcome _ _ _ _ _ _ _ _ Hrun) as [Paths HP].
    cbn [FullDeps].
    pose proof (Htaken Worker Paths Data eq_refl HP) as He.
    apply is_empty_true in He. rewrite He. eauto.
Qed.

End Returns.

Lemma callback300_retryFits : retryFits callback300.
Proof. intros c Name Hash Kind _. cbn. lia. Qed.

Lemma v3_returns_witness :
  exists F,
    (clang_experimental_DependencyScannerWorker_getFileDependencies_v3
       (Some sampleWorker) 3 (Some sampleCommand) None "/src" callback300 ErrorPtr
       (initialState 0)).1 = Ret F.
Proof.
  apply (v3_returns (Some sampleWorker) 3 sampleCommand None "/src" callback300
           (initialState 0)).
  - cbn. lia.
  - apply callback300_retryFits.
  - intros Worker Paths Data [= <-] [= <-]. discriminate.
Defined.

Lemma v4_returns_witness :
  exists L,
    (clang_experimental_DependencyScannerWorker_getFileDependencies_v4
       (Some sampleWorker) 3 (Some sampleCommand) None "/src" callback300 ErrorPtr
       (initialState 0)).1 = Ret L.
Proof.
  apply (v4_returns (Some sampleWorker) 3 sampleCommand None "/src" callback300
           (initialState 0)).
  - cbn. lia.
  - apply callback300_retryFits.
  - intros Worker Paths Data [= <-] [= <-]. reflexivity.
Defined.

(** ** Encoded identities *)

Lemma decodeModuleID_moduleDepString (MID : ModuleID) :
  containsColon (ContextHash MID) = false ->
  decodeModuleID (moduleDepString MID) = Some MID.
Proof.
  intros Hh. destruct MID as [n h]. unfold decodeModuleID, moduleDepString.
  cbn [ModuleName ContextHash] in *. by rewrite (splitAtLastColon_append _ _ Hh).
Qed.

(** Two identities whose context hashes contain no colon are encoded to the
    same [moduleDeps] string only when they are the same identity. *)
Theorem moduleDepString_injective (A B : ModuleID) :
  containsColon (ContextHash A) = false ->
  containsColon (ContextHash B) = false ->
  moduleDepString A = moduleDepString B -> A = B.
Proof.
  intros HA HB Heq.
  pose proof (decodeModuleID_moduleDepString A HA) as DA.
  pose proof (decodeModuleID_moduleDepString B HB) as DB.
  rewrite Heq in DA. congruence.
Qed.

Lemma moduleDepString_injective_witness : ID_M = ID_M.
Proof.
  exact (moduleDepString_injective ID_M ID_M eq_refl eq_refl eq_refl).
Defined.

Lemma append_assoc (a b c : string) : (a +:+ b) +:+ c = a +:+ (b +:+ c).
Proof.
  induction a as [|x a IH]; [reflexivity|].
  change (String x ((a +:+ b) +:+ c) = String x (a +:+ (b +:+ c))). by rewrite IH.
Qed.

(** The encoding does not tell where the name ends when a context hash
    contains a colon: the identity with name [n] and hash [h1:h2] and the
    identity with name [n:h1] and hash [h2] are encoded to the same string. *)
Theorem moduleDepString_collision (n h1 h2 : string) :
  moduleDepString (mkModuleID n (h1 +:+ ":" +:+ h2))
  = moduleDepString (mkModuleID (n +:+ ":" +:+ h1) h2).
Proof.
  unfold moduleDepString. cbn [ModuleName ContextHash].
  by rewrite !append_assoc.
Qed.

(** ** What the dispose routines release *)

Lemma memberKeys_spec (Which : list Member) (Index n : nat) :
  NoDup Which ->
  NoDup (memberKeys Which Index n) /\
  (forall Owner W,
     (Owner, W) ∈ memberKeys Which Index n <->
     Index <= Owner < Index + n /\ W ∈ Which).
Proof.
  intros HW. revert Index. induction n as [|n IH]; intros Index.
  - cbn. split; [constructor|]. intros Owner W. split; [by intros ?%elem_of_nil | lia].
  - destruct (IH (S Index)) as [Hnd Hin].
    change (memberKeys Which Index (S n))
      with (map (pair Index) Which ++ memberKeys Which (S Index) n).
    split.
    + apply NoDup_app. split; [|split; [|exact Hnd]].
      * by apply (NoDup_fmap_2 (pair Index)).
      * intros [Owner W] (W' & [= -> ->] & _)%list_elem_of_fmap Hrest.
        apply Hin in Hrest. lia.
    + intros Owner W. rewrite elem_of_app, Hin, list_elem_of_fmap. split.
      * intros [(W' & [= -> ->] & HW')|[Hr HW']]; (split; [lia | done]).
      * intros [Hr HW']. destruct (decide (Owner = Index)) as [->|Hne].
        -- left. by exists W.
        -- right. split; [lia | done].
Qed.

Lemma disposeModulesFrom_keys (Index : nat) (Modules : list CXModuleDependency) :
  omap released (disposeModulesFrom Index Modules)
  = memberKeys moduleMembers Index (length Modules) /\
  length (disposeModulesFrom Index Modules) = 5 * length Modules /\
  Forall (fun c => is_Some (released c)) (disposeModulesFrom Index Modules).
Proof.
  revert Index. induction Modules as [|MD Rest IH]; intros Index.
  - by repeat split.
  - destruct (IH (S Index)) as (Hk & Hlen & Hall).
    change (memberKeys moduleMembers Index (length (MD :: Rest)))
      with (map (pair Index) moduleMembers
            ++ memberKeys moduleMembers (S Index) (length Rest)).
    rewrite <- Hk. split; [reflexivity|]. split.
    + cbn [disposeModulesFrom length app]. rewrite Hlen. lia.
    + cbn [disposeModulesFrom app]. repeat (constructor; [by eexists|]). exact Hall.
Qed.

Lemma disposeCommandsFrom_keys (Index : nat) (Cmds : list CXTranslationUnitCommand) :
  omap released (disposeCommandsFrom Index Cmds)
  = memberKeys commandMembers Index (length Cmds) /\
  length (disposeCommandsFrom Index Cmds) = 5 * length Cmds /\
  Forall (fun c => is_Some (released c)) (disposeCommandsFrom Index Cmds).
Proof.
  revert Index. induction Cmds as [|C Rest IH]; intros Index.
  - by repeat split.
  - destruct (IH (S Index)) as (Hk & Hlen & Hall).
    change (memberKeys commandMembers Index (length (C :: Rest)))
      with (map (pair Index) commandMembers
            ++ memberKeys commandMembers (S Index) (length Rest)).
    rewrite <- Hk. split; [reflexivity|]. split.
    + cbn [disposeCommandsFrom length app]. rewrite Hlen. lia.
    + cbn [disposeCommandsFrom app]. repeat (constructor; [by eexists|]). exact Hall.
Qed.

Lemma moduleMembers_NoDup : NoDup moduleMembers.
Proof. apply (bool_decide_unpack _). by vm_compute. Qed.

Lemma commandMembers_NoDup : NoDup commandMembers.
Proof. apply (bool_decide_unpack _). by vm_compute. Qed.

(** [clang_experimental_ModuleDependencySet_dispose] releases, of every
    module of the set, the name, the context hash, the module map path, the
    file dependencies and the module dependencies, each exactly once, and
    after all of them the array and the set itself.  It releases no build
    arguments: the string set that [getFullDependencies] puts into
    [BuildArguments] is still allocated when the routine is done. *)
Theorem ModuleDependencySet_dispose_releases (MDS : CXModuleDependencySet) :
  let calls := clang_experimental_ModuleDependencySet_dispose MDS in
  NoDup (omap released calls) /\
  (forall Owner W,
     (Owner, W) ∈ omap released calls <->
     Owner < length MDS /\
     W ∈ [Member_Name; Member_ContextHash; Member_ModuleMapPath;
          Member_FileDeps; Member_ModuleDeps]) /\
  (forall Owner, (Owner, Member_BuildArguments) ∉ omap released calls) /\
  (exists members,
     calls = members ++ [delete_array (length MDS); delete_object] /\
     Forall (fun c => is_Some (released c)) members /\
     length members = 5 * length MDS).
Proof.
  cbv zeta. unfold clang_experimental_ModuleDependencySet_dispose.
  destruct (disposeModulesFrom_keys 0 MDS) as (Hk & Hlen & Hall).
  destruct (memberKeys_spec moduleMembers 0 (length MDS) moduleMembers_NoDup)
    as [Hnd Hin].
  rewrite omap_app, Hk. cbn [omap list_omap released]. rewrite app_nil_r.
  split; [exact Hnd|]. split; [|split].
  - intros Owner W. rewrite Hin. unfold moduleMembers. split; intros [? ?]; (split; [lia|done]).
  - intros Owner HB%Hin. destruct HB as [_ HB]. unfold moduleMembers in HB.
    rewrite !elem_of_cons, elem_of_nil in HB.
    by repeat (destruct HB as [HB|HB]; [discriminate HB|]).
  - eexists. split; [reflexivity|]. by split.
Qed.

(** [clang_experimental_FileDependencies_dispose_v4] releases all five
    string members of every command record (context hash, file
    dependencies, module dependencies, executable, build arguments), each
    exactly once, and then the array and the result.  The v3 routine
    [clang_experimental_FileDependencies_dispose] releases the context
    hash, the file dependencies and the module dependencies and then the
    record, and does not release the build arguments that the v3 entry
    point fills in. *)
Theorem FileDependencies_dispose_releases (FD : CXFileDependencies_v4)
    (ID : CXFileDependencies) :
  let calls4 := clang_experimental_FileDependencies_dispose_v4 FD in
  let calls3 := clang_experimental_FileDependencies_dispose ID in
  NoDup (omap released calls4) /\
  (forall Owner W,
     (Owner, W) ∈ omap released calls4 <->
     Owner < length FD /\
     W ∈ [Member_ContextHash; Member_FileDeps; Member_ModuleDeps;
          Member_Executable; Member_BuildArguments]) /\
  (exists members,
     calls4 = members ++ [delete_array (length FD); delete_object] /\
     Forall (fun c => is_Some (released c)) members /\
     length members = 5 * length FD) /\
  omap released calls3
    = [(0, Member_ContextHash); (0, Member_FileDeps); (0, Member_ModuleDeps)] /\
  last calls3 = Some delete_object /\
  clang_disposeStringSet 0 Member_BuildArguments (F_BuildArguments ID) ∉ calls3.
Proof.
  cbv zeta. unfold clang_experimental_FileDependencies_dispose_v4.
  destruct (disposeCommandsFrom_keys 0 FD) as (Hk & Hlen & Hall).
  destruct (memberKeys_spec commandMembers 0 (length FD) commandMembers_NoDup)
    as [Hnd Hin].
  rewrite omap_app, Hk. cbn [omap list_omap released]. rewrite app_nil_r.
  split; [exact Hnd|]. split; [|split; [|split; [|split]]].
  - intros Owner W. rewrite Hin. unfold commandMembers.
    split; intros [? ?]; (split; [lia|done]).
  - eexists. split; [reflexivity|]. by split.
  - reflexivity.
  - reflexivity.
  - unfold clang_experimental_FileDependencies_dispose.
    rewrite !elem_of_cons, elem_of_nil. intros [H|[H|[H|[H|[]]]]]; discriminate H.
Qed.

(** ** Notifications per call *)

Lemma notifications_bounded (FDR : FullDependenciesResult) :
  length (mdcCalls (notifications FDR)) <= 1 /\
  Forall (fun MDS => MDS <> []) (mdcCalls (notifications FDR)) /\
  Forall (fun MDS => length MDS = length (DiscoveredModules FDR))
         (mdcCalls (notifications FDR)).
Proof.
  rewrite mdcCalls_notifications.
  destruct (DiscoveredModules FDR) as [|MD New]; cbn [is_empty].
  - cbn. split; [lia|]. split; constructor.
  - cbn [length]. split; [lia|]. split; repeat constructor.
    + discriminate.
    + by rewrite length_map.
Qed.

Section PerCall.

Context {Ctx : Type}.
Implicit Types (MLO : CXModuleLookupOutputCallback Ctx) (s : State Ctx).

(** In one call of an entry point the discovery callback is invoked at most
    once and never with an empty set, and the result handler at most once,
    whatever the engine does and however the call ends. *)
Theorem notifications_per_call Worker argc Args ModuleName WorkingDirectory MLO error s :
  (2 <= argc)%Z -> getFormat Worker = Full -> Z.to_nat argc <= length Args ->
  let r3 := clang_experimental_DependencyScannerWorker_getFileDependencies_v3
              (Some Worker) argc (Some Args) ModuleName WorkingDirectory MLO error s in
  let r4 := clang_experimental_DependencyScannerWorker_getFileDependencies_v4
              (Some Worker) argc (Some Args) ModuleName WorkingDirectory MLO error s in
  (exists Sets Records,
     mdcCalls (trace r3.2) = mdcCalls (trace s) ++ Sets /\
     handlerCalls (trace r3.2) = handlerCalls (trace s) ++ Records /\
     length Sets <= 1 /\ Forall (fun MDS => MDS <> []) Sets /\ length Records <= 1) /\
  (exists Sets Records,
     mdcCalls (trace r4.2) = mdcCalls (trace s) ++ Sets /\
     handlerCalls (trace r4.2) = handlerCalls (trace s) ++ Records /\
     length Sets <= 1 /\ Forall (fun MDS => MDS <> []) Sets /\ length Records <= 1).
Proof.
  intros Hge Hfmt Hlen r3 r4. subst r3 r4.
  rewrite v3_accepted, v4_accepted by done. cbv zeta.
  destruct (computeDependencies _ _ _ _ _ _) as [o s1] eqn:Hrun.
  pose proof (engine_phase_mdcCalls _ _ _ _ _ _ _ _ Hrun) as Hm.
  pose proof (engine_phase_handlerCalls _ _ _ _ _ _ _ _ Hrun) as Hh.
  cbn [scanEntryState trace] in Hm, Hh.
  assert (Hnone : forall t, mdcCalls t = mdcCalls (trace s) ->
                  handlerCalls t = handlerCalls (trace s) ->
    exists Sets Records : list _,
      mdcCalls t = mdcCalls (trace s) ++ Sets /\
      handlerCalls t = handlerCalls (trace s) ++ Records /\
      length Sets <= 1 /\ Forall (fun MDS : CXModuleDependencySet => MDS <> []) Sets /\
      length Records <= 1).
  { intros t H1 H2. exists [], []. rewrite !app_nil_r. cbn. repeat split; try done; lia. }
  assert (Hsome : forall FDR,
    exists Sets Records : list _,
      mdcCalls (trace (withEvents s1 (notifications FDR))) = mdcCalls (trace s) ++ Sets /\
      handlerCalls (trace (withEvents s1 (notifications FDR)))
        = handlerCalls (trace s) ++ Records /\
      length Sets <= 1 /\ Forall (fun MDS : CXModuleDependencySet => MDS <> []) Sets /\
      length Records <= 1).
  { intros FDR. exists (mdcCalls (notifications FDR)), [FullDeps FDR].
    cbn [withEvents trace]. rewrite mdcCalls_app, Hm.
    unfold handlerCalls at 1. rewrite omap_app.
    fold (handlerCalls (trace s1)) (handlerCalls (notifications FDR)).
    rewrite Hh, handlerCalls_notifications.
    destruct (notifications_bounded FDR) as (Hl & Hne & _). by repeat split. }
  destruct o as [[Message|Data]|e].
  - destruct error; cbn [snd withError trace]; split; by apply Hnone.
  - split; destruct (is_empty _); cbn [snd]; apply Hsome.
  - cbn [snd]. split; by apply Hnone.
Qed.

End PerCall.

Lemma notifications_per_call_witness :
  exists Sets Records,
    mdcCalls (trace (clang_experimental_DependencyScannerWorker_getFileDependencies_v3
                       (Some repeatingWorker) 3 (Some sampleCommand) None "/src"
                       callbackShort ErrorPtr (initialState 0)).2)
      = mdcCalls (trace (initialState 0)) ++ Sets /\
    handlerCalls (trace (clang_experimental_DependencyScannerWorker_getFileDependencies_v3
                           (Some repeatingWorker) 3 (Some sampleCommand) None "/src"
                           callbackShort ErrorPtr (initialState 0)).2)
      = handlerCalls (trace (initialState 0)) ++ Records /\
    length Sets <= 1 /\ Forall (fun MDS => MDS <> []) Sets /\ length Records <= 1.
Proof.
  destruct (notifications_per_call repeatingWorker 3 sampleCommand None "/src"
              callbackShort ErrorPtr (initialState 0)
              ltac:(lia) eq_refl ltac:(cbn; lia)) as [H _].
  exact H.
Defined.
